(** * Healthcare test-case generator back end: a model of its synthesis workflow

    The development embeds the decision logic of the FastAPI back end

    - [api/services/llm_service.py]  (class [LLMService]),
    - [app/services/jira_service.py] (class [JiraService]),
    - [api/main.py]                  (the request handlers and the context store)

    as Rocq functions and proves, or refutes, the properties its design
    document states about them.

    Conventions.  A Python [str] is a Rocq [string], one [ascii] per
    character.  Python values that come out of [json.loads] are terms of
    [json]; the Python [None] is [JNull].  A computation that may raise is a
    term of [result]; [try ... except Exception] is [try_except].  The three
    collaborators whose answers the code cannot predict (the strict JSON
    parser [json.loads], the generative model behind [llm.ainvoke] and the
    HTTP call to Jira) are parameters of the functions that use them, so
    every theorem holds for whatever they answer; [Json.loads] is a concrete
    strict parser used to evaluate the code on explicit texts. *)

From Stdlib Require Import String Ascii List ZArith Bool Lia DecimalString.
Import ListNotations.

Open Scope Z_scope.
Open Scope list_scope.
Open Scope string_scope.

(* ================================================================= *)
(** ** Python run-time model *)

Module Py.

(** Exception classes the modelled code raises or lets pass.  All of them
    derive from [Exception], so a handler [except Exception] catches each. *)
Inductive exn : Type :=
| AttributeError                                   (* [x.get] on a value that has no [get] *)
| TypeError                                        (* [len], iteration or [+]/[[]] on a wrong type *)
| KeyError (key : string)                          (* [d[key]] on a missing key *)
| JSONDecodeError                                  (* raised by [json.loads] *)
| HTTPException (status_code : Z) (detail : string)
| Exception (msg : string)                         (* [raise Exception(msg)] *)
| ExternalError (what : string).                   (* a failure inside a collaborator *)

Inductive result (A : Type) : Type :=
| Ok (a : A)
| Raise (e : exn).
Arguments Ok {A} a.
Arguments Raise {A} e.

Definition bind {A B} (c : result A) (k : A -> result B) : result B :=
  match c with
  | Ok a => k a
  | Raise e => Raise e
  end.

(** [try: c except Exception as e: h e]. *)
Definition try_except {A} (c : result A) (h : exn -> result A) : result A :=
  match c with
  | Ok a => Ok a
  | Raise e => h e
  end.

Definition raises {A} (c : result A) : bool :=
  match c with Ok _ => false | Raise _ => true end.

(** A Python [float] obtained from a JSON literal: the literal's exact decimal
    value [(-1)^neg * digits * 10^exp10], or one of the three special
    literals [NaN], [Infinity], [-Infinity] that [json.loads] accepts. *)
Inductive pyfloat : Type :=
| FNaN
| FInf (neg : bool)
| FDec (neg : bool) (digits : N) (exp10 : Z).

(** The binary64 value of a decimal is zero when the decimal is zero or lies
    at or below half the least subnormal, [2^-1075] (round half to even). *)
Definition float_is_zero (f : pyfloat) : bool :=
  match f with
  | FNaN | FInf _ => false
  | FDec _ d e =>
      if (d =? 0)%N then true
      else if (0 <=? e)%Z then false
      else (Z.of_N d * 2 ^ 1075 <=? 10 ^ (- e))%Z
  end.

Set Warnings "-register-all".

(** Values built by [json.loads]: [None], [bool], [int], [float], [str],
    [list] and [dict].  A [dict] keeps its keys in insertion order. *)
Inductive json : Type :=
| JNull
| JBool (b : bool)
| JInt (z : Z)
| JFloat (f : pyfloat)
| JStr (s : string)
| JArr (items : list json)
| JObj (members : list (string * json)).

Fixpoint dict_get {V : Type} (d : list (string * V)) (k : string) : option V :=
  match d with
  | [] => None
  | (k', v) :: d' => if String.eqb k' k then Some v else dict_get d' k
  end.

(** [d[k] = v]: an existing key keeps its position, a new key goes last. *)
Fixpoint dict_set {V : Type} (d : list (string * V)) (k : string) (v : V)
  : list (string * V) :=
  match d with
  | [] => [(k, v)]
  | (k', v') :: d' =>
      if String.eqb k' k then (k', v) :: d' else (k', v') :: dict_set d' k v
  end.

(** Truth value of a Python object ([bool(v)], as used by [not], [or], [if]). *)
Definition truthy (v : json) : bool :=
  match v with
  | JNull => false
  | JBool b => b
  | JInt z => negb (z =? 0)%Z
  | JFloat f => negb (float_is_zero f)
  | JStr s => negb (String.eqb s "")
  | JArr l => match l with [] => false | _ => true end
  | JObj m => match m with [] => false | _ => true end
  end.

(** [v.get(k, default)]: only a [dict] has the method. *)
Definition get (v : json) (k : string) (default : json) : result json :=
  match v with
  | JObj m => Ok (match dict_get m k with Some x => x | None => default end)
  | _ => Raise AttributeError
  end.

(** [v[k]] with a [str] subscript. *)
Definition getitem (v : json) (k : string) : result json :=
  match v with
  | JObj m => match dict_get m k with Some x => Ok x | None => Raise (KeyError k) end
  | _ => Raise TypeError
  end.

(** [len(v)]. *)
Definition len (v : json) : result Z :=
  match v with
  | JStr s => Ok (Z.of_nat (String.length s))
  | JArr l => Ok (Z.of_nat (List.length l))
  | JObj m => Ok (Z.of_nat (List.length m))
  | _ => Raise TypeError
  end.

Fixpoint chars (s : string) : list json :=
  match s with
  | EmptyString => []
  | String c s' => JStr (String c EmptyString) :: chars s'
  end.

(** The items a [for] loop draws from [v]: the elements of a [list], the
    characters of a [str], the keys of a [dict]. *)
Definition iter (v : json) : result (list json) :=
  match v with
  | JArr l => Ok l
  | JStr s => Ok (chars s)
  | JObj m => Ok (map (fun kv => JStr (fst kv)) m)
  | _ => Raise TypeError
  end.

Definition is_str (v : json) : bool := match v with JStr _ => true | _ => false end.
Definition is_dict (v : json) : bool := match v with JObj _ => true | _ => false end.

(** [s.find(c)] for a one-character needle: least index, or [-1]. *)
Fixpoint find (c : ascii) (s : string) : Z :=
  match s with
  | EmptyString => -1
  | String a s' =>
      if Ascii.eqb a c then 0
      else match find c s' with
           | -1 => -1
           | i => i + 1
           end
  end.

(** [s.rfind(c)]: greatest index, or [-1]. *)
Fixpoint rfind (c : ascii) (s : string) : Z :=
  match s with
  | EmptyString => -1
  | String a s' =>
      match rfind c s' with
      | -1 => if Ascii.eqb a c then 0 else -1
      | i => i + 1
      end
  end.

(** [s[lo:hi]]: negative bounds count from the end, both are clamped. *)
Definition clamp (n : Z) (i : Z) : Z :=
  let j := if (i <? 0)%Z then i + n else i in
  Z.max 0 (Z.min n j).

Definition slice (s : string) (lo hi : Z) : string :=
  let n := Z.of_nat (String.length s) in
  let a := clamp n lo in
  let b := clamp n hi in
  String.substring (Z.to_nat a) (Z.to_nat (b - a)) s.

Definition nl : string := String (ascii_of_nat 10) "".

(** [dquoted s] is [s] with every apostrophe turned into a double quote: the
    texts that hold double quotes are written below with apostrophes. *)
Fixpoint dquoted (s : string) : string :=
  match s with
  | EmptyString => EmptyString
  | String c s' =>
      String (if Ascii.eqb c "'" then ascii_of_nat 34 else c) (dquoted s')
  end.

(** [c in s] for a one-character [c]. *)
Fixpoint occurs (c : ascii) (s : string) : bool :=
  match s with
  | EmptyString => false
  | String a s' => Ascii.eqb a c || occurs c s'
  end.

(** [str(n)] for an [int]. *)
Definition str_of_int (z : Z) : string := NilZero.string_of_int (Z.to_int z).

(** ["sep".join(parts)]. *)
Fixpoint join (sep : string) (parts : list string) : string :=
  match parts with
  | [] => ""
  | [p] => p
  | p :: rest => p ++ sep ++ join sep rest
  end.

End Py.

Export Py.

Declare Scope py_scope.
Delimit Scope py_scope with py.
Notation "x <- c ;; k" := (bind c (fun x => k))
  (at level 61, c at next level, right associativity) : py_scope.
Notation "c ;;; k" := (bind c (fun _ => k))
  (at level 61, right associativity) : py_scope.
Open Scope py_scope.

(* ================================================================= *)
(** ** A strict JSON parser

    [Json.loads] follows the grammar of CPython's [json.loads]: optional
    white space, one value, optional white space, end of text.  An object
    with a repeated key keeps the last value at the first position.  It is
    the instance of [json.loads] at which the code is evaluated on explicit
    texts; the general theorems do not depend on it.  An escape [\uXXXX]
    denotes the character of that code, which has to lie in the 8-bit
    alphabet of [ascii]. *)

Module Json.

Definition code (c : ascii) : N := N_of_ascii c.

Definition is_ws (c : ascii) : bool :=
  let n := code c in
  ((n =? 32) || (n =? 9) || (n =? 10) || (n =? 13))%N.

Definition is_digit (c : ascii) : bool :=
  let n := code c in ((48 <=? n) && (n <=? 57))%N.

Definition digit_val (c : ascii) : N := (code c - 48)%N.

Definition hex_val (c : ascii) : option N :=
  let n := code c in
  if ((48 <=? n) && (n <=? 57))%N then Some (n - 48)%N
  else if ((97 <=? n) && (n <=? 102))%N then Some (n - 87)%N
  else if ((65 <=? n) && (n <=? 70))%N then Some (n - 55)%N
  else None.

Fixpoint skip_ws (s : string) : string :=
  match s with
  | String c s' => if is_ws c then skip_ws s' else s
  | EmptyString => s
  end.

(** [strip_prefix p s] is the rest of [s] after its prefix [p]. *)
Fixpoint strip_prefix (p s : string) : option string :=
  match p, s with
  | EmptyString, _ => Some s
  | String a p', String b s' => if Ascii.eqb a b then strip_prefix p' s' else None
  | String _ _, EmptyString => None
  end.

(** The longest run of digits at the head of [s], folded into [acc], with
    the number of digits read. *)
Fixpoint digits (s : string) (acc : N) (n : nat) : N * nat * string :=
  match s with
  | String c s' =>
      if is_digit c then digits s' (acc * 10 + digit_val c)%N (S n) else (acc, n, s)
  | EmptyString => (acc, n, s)
  end.

(** The body of a string literal, after the opening quote. *)
Fixpoint scan_string (s : string) : option (string * string) :=
  match s with
  | EmptyString => None
  | String c s' =>
      if (code c =? 34)%N then Some (EmptyString, s')
      else if (code c <? 32)%N then None
      else if (code c =? 92)%N then
        match s' with
        | String e s'' =>
            let plain (x : N) :=
              match scan_string s'' with
              | Some (body, rest) => Some (String (ascii_of_N x) body, rest)
              | None => None
              end in
            if (code e =? 34)%N then plain 34%N
            else if (code e =? 92)%N then plain 92%N
            else if (code e =? 47)%N then plain 47%N
            else if (code e =? 98)%N then plain 8%N
            else if (code e =? 102)%N then plain 12%N
            else if (code e =? 110)%N then plain 10%N
            else if (code e =? 114)%N then plain 13%N
            else if (code e =? 116)%N then plain 9%N
            else if (code e =? 117)%N then
              match s'' with
              | String h1 (String h2 (String h3 (String h4 s4))) =>
                  match hex_val h1, hex_val h2, hex_val h3, hex_val h4 with
                  | Some a, Some b, Some c', Some d =>
                      let u := (((a * 16 + b) * 16 + c') * 16 + d)%N in
                      if (u <? 256)%N then
                        match scan_string s4 with
                        | Some (body, rest) => Some (String (ascii_of_N u) body, rest)
                        | None => None
                        end
                      else None
                  | _, _, _, _ => None
                  end
              | _ => None
              end
            else None
        | EmptyString => None
        end
      else
        match scan_string s' with
        | Some (body, rest) => Some (String c body, rest)
        | None => None
        end
  end.

(** A number at the head of [s]: an optional minus sign, then [0] or a run
    of digits that does not start with [0]; then, optionally, a dot and at
    least one digit; then, optionally, [e] or [E], a sign and at least one
    digit.  With a fraction or an exponent the number is a [float]. *)
Definition scan_number (s : string) : option (json * string) :=
  let (neg, s1) := match strip_prefix "-" s with
                   | Some r => (true, r)
                   | None => (false, s)
                   end in
  let int_part :=
    match s1 with
    | String c r =>
        if (code c =? 48)%N then Some (0%N, r)
        else if is_digit c then let '(v, _, r') := digits s1 0%N 0%nat in Some (v, r')
        else None
    | EmptyString => None
    end in
  match int_part with
  | None => None
  | Some (i, s2) =>
      let '(has_frac, f, nf, s3) :=
        match s2 with
        | String d r =>
            if (code d =? 46)%N then
              let '(v, n, r') := digits r 0%N 0%nat in
              match n with
              | O => (false, 0%N, 0%nat, s2)
              | _ => (true, v, n, r')
              end
            else (false, 0%N, 0%nat, s2)
        | EmptyString => (false, 0%N, 0%nat, s2)
        end in
      let '(has_exp, e, s4) :=
        match s3 with
        | String x r =>
            if ((code x =? 101) || (code x =? 69))%N then
              let (eneg, r1) :=
                match r with
                | String sg r' =>
                    if (code sg =? 45)%N then (true, r')
                    else if (code sg =? 43)%N then (false, r')
                    else (false, r)
                | EmptyString => (false, r)
                end in
              let '(v, n, r2) := digits r1 0%N 0%nat in
              match n with
              | O => (false, 0%Z, s3)
              | _ => (true, if eneg then (- Z.of_N v)%Z else Z.of_N v, r2)
              end
            else (false, 0%Z, s3)
        | EmptyString => (false, 0%Z, s3)
        end in
      if has_frac || has_exp then
        Some (JFloat (FDec neg (i * 10 ^ N.of_nat nf + f)%N (e - Z.of_nat nf)%Z), s4)
      else
        Some (JInt (if neg then (- Z.of_N i)%Z else Z.of_N i), s4)
  end.

(** [scan fuel s]: one value at the head of [s] and the text after it.
    [scan_items] reads the items of an array after the first, [scan_members]
    the members of an object; both start at a value or key. *)
Fixpoint scan (fuel : nat) (s : string) : option (json * string) :=
  match fuel with
  | O => None
  | S fuel' =>
      match s with
      | EmptyString => None
      | String c r =>
          if (code c =? 34)%N then
            match scan_string r with
            | Some (body, rest) => Some (JStr body, rest)
            | None => None
            end
          else if (code c =? 123)%N then
            let r1 := skip_ws r in
            match strip_prefix "}" r1 with
            | Some rest => Some (JObj [], rest)
            | None =>
                match scan_members fuel' r1 [] with
                | Some (m, rest) => Some (JObj m, rest)
                | None => None
                end
            end
          else if (code c =? 91)%N then
            let r1 := skip_ws r in
            match strip_prefix "]" r1 with
            | Some rest => Some (JArr [], rest)
            | None =>
                match scan_items fuel' r1 with
                | Some (l, rest) => Some (JArr l, rest)
                | None => None
                end
            end
          else
            match strip_prefix "null" s, strip_prefix "true" s, strip_prefix "false" s with
            | Some rest, _, _ => Some (JNull, rest)
            | _, Some rest, _ => Some (JBool true, rest)
            | _, _, Some rest => Some (JBool false, rest)
            | None, None, None =>
                match scan_number s with
                | Some v => Some v
                | None =>
                    match strip_prefix "NaN" s, strip_prefix "Infinity" s,
                          strip_prefix "-Infinity" s with
                    | Some rest, _, _ => Some (JFloat FNaN, rest)
                    | _, Some rest, _ => Some (JFloat (FInf false), rest)
                    | _, _, Some rest => Some (JFloat (FInf true), rest)
                    | None, None, None => None
                    end
                end
            end
      end
  end

with scan_items (fuel : nat) (s : string) : option (list json * string) :=
  match fuel with
  | O => None
  | S fuel' =>
      match scan fuel' s with
      | None => None
      | Some (v, r) =>
          let r1 := skip_ws r in
          match strip_prefix "]" r1, strip_prefix "," r1 with
          | Some rest, _ => Some ([v], rest)
          | None, Some r2 =>
              match scan_items fuel' (skip_ws r2) with
              | Some (l, rest) => Some (v :: l, rest)
              | None => None
              end
          | None, None => None
          end
      end
  end

with scan_members (fuel : nat) (s : string) (acc : list (string * json))
  : option (list (string * json) * string) :=
  match fuel with
  | O => None
  | S fuel' =>
      match s with
      | String q r =>
          if (code q =? 34)%N then
            match scan_string r with
            | None => None
            | Some (key, r1) =>
                match strip_prefix ":" (skip_ws r1) with
                | None => None
                | Some r2 =>
                    match scan fuel' (skip_ws r2) with
                    | None => None
                    | Some (v, r3) =>
                        let acc' := dict_set acc key v in
                        let r4 := skip_ws r3 in
                        match strip_prefix "}" r4, strip_prefix "," r4 with
                        | Some rest, _ => Some (acc', rest)
                        | None, Some r5 => scan_members fuel' (skip_ws r5) acc'
                        | None, None => None
                        end
                    end
                end
            end
          else None
      | EmptyString => None
      end
  end.

Definition loads (text : string) : result json :=
  match scan (2 * String.length text + 2) (skip_ws text) with
  | Some (v, rest) =>
      match skip_ws rest with
      | EmptyString => Ok v
      | String _ _ => Raise JSONDecodeError
      end
  | None => Raise JSONDecodeError
  end.

End Json.

(* ================================================================= *)
(** ** api/services/llm_service.py *)

Module LLMService.

Section Service.

(** [json.loads]: the strict parser, raising on any text it rejects. *)
Variable loads : string -> result json.

(** [llm.ainvoke(prompt)] followed by reading [response.content]: the text
    the model answers to a prompt, or the failure of the call. *)
Variable llm : string -> result string.

(** [str(v)] for a value [v] that is not itself a [str]. *)
Variable repr : json -> string.

Definition _build_generation_prompt (source_text : string) (max_cases : Z) : string :=
  let instructions :=
    "You are a senior QA engineer for healthcare software. " ++
    "Generate a diverse suite of test cases (positive, negative, edge cases) with realistic test data. " ++
    "Focus on HIPAA, PHI handling, consent, audit logging, roles, clinical safety, interoperability (HL7/FHIR), and input validation. " ++
    "Return ONLY a valid JSON object with a top-level key 'testCases' which is an array of objects. " ++
    "Each object must have fields: testCaseId, title, description, testSteps (array of strings), " ++
    "expectedResults, priority (P1/P2/P3). " ++
    "Use at most " ++ str_of_int max_cases ++ " test cases. Use readable IDs like TC-001, TC-002." in
  let example := dquoted
"{
  'testCases': [
    {
      'testCaseId': 'TC-001',
      'title': 'Example',
      'description': '...',
      'testSteps': ['step 1', 'step 2'],
      'expectedResults': '...',
      'priority': 'P2'
    }
  ]
}" in
  instructions ++ nl ++ nl ++
  "Context:" ++ nl ++ slice source_text 0 12000 ++ nl ++ nl ++
  "JSON Schema and Example:" ++ nl ++ example ++ nl ++ nl ++
  "Return only JSON with no extra text.".

Definition _build_refinement_prompt (source_text qa_block : string) (max_cases : Z) : string :=
  let instructions :=
    "Refine and regenerate the healthcare QA test cases based on additional clarifications below. " ++
    "Return ONLY JSON with top-level key 'testCases'. Maintain the same schema. " ++
    "Ensure coverage of both normal and failure paths, boundary conditions, and compliance aspects. " ++
    "Use at most " ++ str_of_int max_cases ++ " test cases." in
  instructions ++ nl ++ nl ++
  "Context:" ++ nl ++ slice source_text 0 12000 ++ nl ++ nl ++
  "Clarifications:" ++ nl ++ qa_block ++ nl ++ nl ++
  "Return only JSON.".

Definition _propose_followups (source_text : string) : list string :=
  [ "What user roles and permissions need to be covered (e.g., clinician, admin, patient)?";
    "What environments or integrations are in scope (e.g., FHIR server, EHR vendor, external IDP)?";
    "Any regulatory constraints or organizational policies we must validate beyond HIPAA (e.g., SOC2, ISO 27001)?" ].

Definition _safe_parse_json (text : string) : result json :=
  try_except (loads text) (fun _ =>
    let start := find "{" text in
    let end_ := rfind "}" text in
    if negb (start =? -1)%Z && negb (end_ =? -1)%Z && (start <? end_)%Z then
      let snippet := slice text start (end_ + 1) in
      try_except (loads snippet) (fun _ => Ok JNull)
    else Ok JNull).

(** [if not parsed: parsed = {'testCases': []}]. *)
Definition empty_result : json := JObj [("testCases", JArr [])].

Definition or_empty (parsed : json) : json :=
  if negb (truthy parsed) then empty_result else parsed.

(** The condition of line 24,
    [enable_followups and (not parsed.get('testCases') or
     len(parsed.get('testCases', [])) < 3)], evaluated left to right. *)
Definition wants_followups (parsed : json) (enable_followups : bool) : result bool :=
  if enable_followups then
    tc <- get parsed "testCases" JNull ;;
    if negb (truthy tc) then Ok true
    else
      tc' <- get parsed "testCases" (JArr []) ;;
      n <- len tc' ;;
      Ok (n <? 3)%Z
  else Ok false.

Definition generate_test_cases
    (source_text : string) (max_cases : Z) (enable_followups : bool) : result json :=
  let prompt := _build_generation_prompt source_text max_cases in
  content <- llm prompt ;;
  parsed <- _safe_parse_json content ;;
  let parsed := or_empty parsed in
  ask <- wants_followups parsed enable_followups ;;
  if ask then
    let followups := _propose_followups source_text in
    Ok (JObj [("followUpQuestions", JArr (map JStr followups))])
  else Ok parsed.

(** The f-string field [{q}]. *)
Definition format (q : json) : string :=
  match q with
  | JStr s => s
  | _ => repr q
  end.

(** [answers_map.get(idx)] with the [int] index: [answers_map] is a
    [Dict[str, str]], and no [str] key equals an [int]. *)
Definition get_by_int (answers_map : list (string * string)) (idx : nat)
  : option string := None.

(** [answers_map.get(str(idx), '') or answers_map.get(idx) or '']. *)
Definition answer_for (answers_map : list (string * string)) (idx : nat) : string :=
  let a1 := match dict_get answers_map (str_of_int (Z.of_nat idx)) with
            | Some a => a
            | None => ""
            end in
  if negb (String.eqb a1 "") then a1
  else match get_by_int answers_map idx with
       | Some a2 => if negb (String.eqb a2 "") then a2 else ""
       | None => ""
       end.

(** The loop [for idx, q in enumerate(questions)], from index [idx] on. *)
Fixpoint qa_pairs_from (idx : nat) (questions : list json)
    (answers_map : list (string * string)) : list string :=
  match questions with
  | [] => []
  | q :: rest =>
      ("Q: " ++ format q ++ " A: " ++ answer_for answers_map idx)
        :: qa_pairs_from (S idx) rest answers_map
  end.

Definition qa_block (questions : list json) (answers_map : list (string * string))
  : string :=
  join nl (qa_pairs_from 0 questions answers_map).

Definition generate_refined_test_cases
    (source_text : string) (questions : json)
    (answers_map : list (string * string)) (max_cases : Z) : result json :=
  qs <- iter questions ;;
  let qa_block := qa_block qs answers_map in
  let prompt := _build_refinement_prompt source_text qa_block max_cases in
  content <- llm prompt ;;
  parsed <- _safe_parse_json content ;;
  Ok (or_empty parsed).

End Service.

End LLMService.

(* ================================================================= *)
(** ** app/services/jira_service.py *)

Module JiraService.

(** What [requests.get] hands back: [resp.status_code], [resp.text] and the
    outcome of [resp.json()]. *)
Record response : Type := {
  status_code : Z;
  text : string;
  json_body : result json
}.

(** [s.rstrip('/')]. *)
Fixpoint rstrip_slash (s : string) : string :=
  match s with
  | EmptyString => EmptyString
  | String c s' =>
      match rstrip_slash s' with
      | EmptyString => if Ascii.eqb c "/" then EmptyString else String c EmptyString
      | r => String c r
      end
  end.

(** [a + v] where [a] is a [str]: [v] has to be a [str] too. *)
Definition str_add (a : string) (v : json) : result string :=
  match v with
  | JStr s => Ok (a ++ s)
  | _ => Raise TypeError
  end.

(** [v + ''] where [v] comes from the document. *)
Definition add_empty (v : json) : result string :=
  match v with
  | JStr s => Ok (s ++ "")
  | _ => Raise TypeError
  end.

(** [for inner in ...: if inner.get('text'): acc += inner.get('text') + '']. *)
Fixpoint walk_inner (inners : list json) (acc : string) : result string :=
  match inners with
  | [] => Ok acc
  | inner :: rest =>
      t <- get inner "text" JNull ;;
      if truthy t then
        t' <- get inner "text" JNull ;;
        piece <- add_empty t' ;;
        walk_inner rest (acc ++ piece)
      else walk_inner rest acc
  end.

(** [for block in ...: for inner in block.get('content', []): ...]. *)
Fixpoint walk_blocks (blocks : list json) (acc : string) : result string :=
  match blocks with
  | [] => Ok acc
  | block :: rest =>
      c <- get block "content" (JArr []) ;;
      inners <- iter c ;;
      acc' <- walk_inner inners acc ;;
      walk_blocks rest acc'
  end.

Definition acceptance_keys : list string :=
  ["customfield_10034"; "Acceptance Criteria"; "acceptanceCriteria"].

(** The loop [for key in [...]] of lines 31-42, entered with the current
    value of [acceptance].  Both [isinstance] branches end in [break]. *)
Fixpoint acceptance_loop (keys : list string) (fields : json) (acceptance : string)
  : result string :=
  match keys with
  | [] => Ok acceptance
  | key :: rest =>
      val <- get fields key JNull ;;
      match val with
      | JStr s => Ok s
      | JObj _ =>
          c <- get val "content" (JArr []) ;;
          blocks <- iter c ;;
          walk_blocks blocks acceptance
      | _ => acceptance_loop rest fields acceptance
      end
  end.

(** Lines 17-44: from the decoded issue to the story text. *)
Definition story_of_issue (data : json) : result string :=
  fields <- get data "fields" (JObj []) ;;
  summary <- get fields "summary" (JStr "") ;;
  description_obj <- get fields "description" JNull ;;
  description_text <-
    (if is_dict description_obj then
       c <- get description_obj "content" JNull ;;
       if truthy c then
         c' <- get description_obj "content" (JArr []) ;;
         blocks <- iter c' ;;
         walk_blocks blocks ""
       else Ok ""
     else
       match description_obj with
       | JStr s => Ok s
       | _ => Ok ""
       end) ;;
  acceptance <- acceptance_loop acceptance_keys fields "" ;;
  s1 <- str_add "Summary:" summary ;;
  Ok (s1 ++ "Description:" ++ description_text ++ "Acceptance Criteria:" ++ acceptance).

Section Service.

(** [requests.get(url, headers=headers, timeout=30)]. *)
Variable http_get : string -> list (string * string) -> result response.

Definition fetch_story (base_url story_key token : string) : result string :=
  if String.eqb token "" then
    Raise (Exception "Jira token not configured in Admin Settings")
  else
    let url := rstrip_slash base_url ++ "/rest/api/3/issue/" ++ story_key in
    let headers := [("Authorization", "Basic " ++ token);
                    ("Accept", "application/json")] in
    resp <- http_get url headers ;;
    if negb (status_code resp =? 200)%Z then
      Raise (Exception ("Jira API error " ++ str_of_int (status_code resp)
                          ++ " " ++ text resp))
    else
      data <- json_body resp ;;
      story_of_issue data.

End Service.

End JiraService.

(* ================================================================= *)
(** ** api/main.py *)

Module Main.

(** One entry of [follow_up_contexts]: the dict with the keys
    ["original_text"], ["questions"] and ["user"]. *)
Record context : Type := {
  original_text : string;
  questions : json;
  user : string
}.

(** [follow_up_contexts]: context id to context, in insertion order. *)
Definition store : Type := list (string * context).

(** The entries of [admin_settings] the handlers read. *)
Record settings : Type := {
  jiraToken : string;
  maxTestCases : Z;
  enableFollowUpQuestions : bool
}.

(** Handlers run in a state-and-exception monad over the store: what was
    written before an exception stays written. *)
Definition M (A : Type) : Type := store -> result A * store.

Definition ret {A} (a : A) : M A := fun st => (Ok a, st).
Definition raise {A} (e : exn) : M A := fun st => (Raise e, st).
Definition lift {A} (c : result A) : M A := fun st => (c, st).
Definition read_store : M store := fun st => (Ok st, st).
Definition write_store (st' : store) : M unit := fun _ => (Ok tt, st').

Definition bindM {A B} (c : M A) (k : A -> M B) : M B :=
  fun st =>
    match c st with
    | (Ok a, st') => k a st'
    | (Raise e, st') => (Raise e, st')
    end.

Definition try_exceptM {A} (c : M A) (h : exn -> M A) : M A :=
  fun st =>
    match c st with
    | (Ok a, st') => (Ok a, st')
    | (Raise e, st') => h e st'
    end.

Declare Scope handler_scope.
Delimit Scope handler_scope with handler.
Notation "x <-- c ;; k" := (bindM c (fun x => k))
  (at level 61, c at next level, right associativity) : handler_scope.
Notation "c >> k" := (bindM c (fun _ => k))
  (at level 61, right associativity) : handler_scope.
Local Open Scope handler_scope.

(** [s.endswith(suffix)]. *)
Definition endswith (s suffix : string) : bool :=
  let n := String.length s in
  let k := String.length suffix in
  (k <=? n)%nat && String.eqb (String.substring (n - k) k s) suffix.

(** The scan of [submit_answers], lines 186-190: the first entry, in
    insertion order, whose ["user"] is the requesting user. *)
Fixpoint find_context (current_user : string) (follow_up_contexts : store)
  : option context :=
  match follow_up_contexts with
  | [] => None
  | (ctx_id, ctx_data) :: rest =>
      if String.eqb (user ctx_data) current_user then Some ctx_data
      else find_context current_user rest
  end.

Section Handlers.

Variable loads : string -> result json.
Variable llm : string -> result string.
Variable repr : json -> string.

(** [str(e)] for a caught exception. *)
Variable exn_str : exn -> string.

Variable admin_settings : settings.

(** Lines 118-132 of [upload_file], repeated as lines 159-173 of
    [fetch_jira_story]: store a context and hand out the questions, or
    hand out the test cases.  The argument of the log call in the [else]
    branch, [len(result['testCases'])], is evaluated before the return. *)
Definition respond (source_text : string) (result : json)
    (current_user context_id : string) : M json :=
  fq <-- lift (get result "followUpQuestions" JNull) ;;
  if truthy fq then
    qs <-- lift (getitem result "followUpQuestions") ;;
    st <-- read_store ;;
    write_store (dict_set st context_id
                   {| original_text := source_text;
                      questions := qs;
                      user := current_user |}) >>
    qs' <-- lift (getitem result "followUpQuestions") ;;
    ret (JObj [("followUpQuestions", qs'); ("contextId", JStr context_id)])
  else
    tc <-- lift (getitem result "testCases") ;;
    lift (len tc) >>
    tc' <-- lift (getitem result "testCases") ;;
    ret (JObj [("testCases", tc')]).

(** [upload_file].  [extracted] is the outcome of lines 99-108: writing
    the upload to disk and [pdf_service.extract_text]; [context_id] is the
    value [str(uuid.uuid4())] takes in this request. *)
Definition upload_file (filename : string) (extracted : result string)
    (current_user context_id : string) : M json :=
  try_exceptM
    ((if negb (endswith filename ".pdf")
      then raise (HTTPException 400 "Only PDF files are supported")
      else ret tt) >>
     extracted_text <-- lift extracted ;;
     result <-- lift (LLMService.generate_test_cases loads llm extracted_text
                        (maxTestCases admin_settings)
                        (enableFollowUpQuestions admin_settings)) ;;
     respond extracted_text result current_user context_id)
    (fun e => raise (HTTPException 500 ("Failed to process file: " ++ exn_str e))).

(** [fetch_jira_story]. *)
Definition fetch_jira_story
    (http_get : string -> list (string * string) -> result JiraService.response)
    (jiraBaseUrl storyNumber : string)
    (current_user context_id : string) : M json :=
  try_exceptM
    (story_data <-- lift (JiraService.fetch_story http_get jiraBaseUrl storyNumber
                            (jiraToken admin_settings)) ;;
     result <-- lift (LLMService.generate_test_cases loads llm story_data
                        (maxTestCases admin_settings)
                        (enableFollowUpQuestions admin_settings)) ;;
     respond story_data result current_user context_id)
    (fun e => raise (HTTPException 500 ("Failed to fetch Jira story: " ++ exn_str e))).

(** [submit_answers].  A stored context is a dict of three entries, so
    [if not context] holds exactly when the scan found none. *)
Definition submit_answers (answers : list (string * string))
    (current_user : string) : M json :=
  try_exceptM
    (st <-- read_store ;;
     match find_context current_user st with
     | None => raise (HTTPException 404 "Context not found")
     | Some context =>
         result <-- lift (LLMService.generate_refined_test_cases loads llm repr
                            (original_text context) (questions context)
                            answers (maxTestCases admin_settings)) ;;
         tc <-- lift (getitem result "testCases") ;;
         ret (JObj [("testCases", tc)])
     end)
    (fun e => raise (HTTPException 500 ("Failed to process answers: " ++ exn_str e))).

End Handlers.

End Main.

(* ================================================================= *)
(** ** Notions the design document uses and the code does not compute *)

Module Spec.

(** Balanced [{...}] regions of a text, counted at nesting depth zero:
    [None] when a brace closes what was never opened or one stays open. *)
Fixpoint regions_from (s : string) (depth count : nat) : option nat :=
  match s with
  | EmptyString => match depth with O => Some count | S _ => None end
  | String c s' =>
      if Ascii.eqb c "{" then regions_from s' (S depth) count
      else if Ascii.eqb c "}" then
        match depth with
        | O => None
        | S O => regions_from s' O (S count)
        | S d => regions_from s' d count
        end
      else regions_from s' depth count
  end.

Definition balanced_regions (s : string) : option nat := regions_from s 0 0.

(** The physical lines of a text: its pieces between line feeds. *)
Fixpoint lines_from (s : string) (cur : string) : list string :=
  match s with
  | EmptyString => [cur]
  | String c s' =>
      if Ascii.eqb c (ascii_of_nat 10) then cur :: lines_from s' ""
      else lines_from s' (cur ++ String c "")
  end.

Definition lines (s : string) : list string := lines_from s "".

(** A dict that brings follow-up questions of its own. *)
Definition own_followups (m : list (string * json)) : bool :=
  match dict_get m "followUpQuestions" with
  | Some v => truthy v
  | None => false
  end.

(** The test cases of a first-pass result that keeps to the output contract
    of the prompt: none when the response gave nothing usable, otherwise
    those of an object whose ['testCases'] entry is a list (or absent, or
    empty) and that brings no follow-up questions of its own.  [None] for
    every other value. *)
Definition listed_cases (parsed : json) : option (list json) :=
  if negb (truthy parsed) then Some []
  else
    match parsed with
    | JObj m =>
        if own_followups m then None
        else
          match dict_get m "testCases" with
          | None => Some []
          | Some (JArr tcs) => Some tcs
          | Some v => if truthy v then None else Some []
          end
    | _ => None
    end.

(** The dict [generate_test_cases] returns on its clarification path. *)
Definition bundle (source : string) : json :=
  JObj [("followUpQuestions", JArr (map JStr (LLMService._propose_followups source)))].

(** The two shapes of a response: follow-up questions with the handle of
    the stored context, or test cases. *)
Definition is_clarification (context_id : string) (r : json) : Prop :=
  exists fq, truthy fq = true /\
    r = JObj [("followUpQuestions", fq); ("contextId", JStr context_id)].

Definition is_test_cases (r : json) : Prop :=
  exists tc, r = JObj [("testCases", tc)].

(** The field [key] of a Jira issue is a [str] or a [dict]. *)
Definition str_or_dict (fields : list (string * json)) (key : string) : bool :=
  match dict_get fields key with
  | Some (JStr _) | Some (JObj _) => true
  | _ => false
  end.

(** The response, if there is one, is a dict with the key [k]. *)
Definition carries (k : string) (r : result json) : bool :=
  match r with
  | Ok (JObj m) => match dict_get m k with Some _ => true | None => false end
  | _ => false
  end.

End Spec.

(* ================================================================= *)
(** ** Inputs on which the code is evaluated *)

Module Examples.

Definition settings_on : Main.settings :=
  {| Main.jiraToken := "dG9rZW4="; Main.maxTestCases := 10;
     Main.enableFollowUpQuestions := true |}.

Definition settings_off : Main.settings :=
  {| Main.jiraToken := "dG9rZW4="; Main.maxTestCases := 10;
     Main.enableFollowUpQuestions := false |}.

(** A model that answers [content] to every prompt. *)
Definition model (content : string) : string -> result string :=
  fun _ => Ok content.

(** A rendering of [str(e)] and of [str(v)]; the handlers only paste them
    into messages. *)
Definition exn_name (e : exn) : string :=
  match e with
  | AttributeError => "AttributeError"
  | TypeError => "TypeError"
  | KeyError k => "'" ++ k ++ "'"
  | JSONDecodeError => "JSONDecodeError"
  | HTTPException c d => str_of_int c ++ ": " ++ d
  | Exception m => m
  | ExternalError w => w
  end.

Definition no_repr (v : json) : string := "".

Definition tc (id : string) : json := JObj [("testCaseId", JStr id)].

Definition one_case : string :=
  dquoted "{'testCases': [{'testCaseId': 'TC-001'}]}".

Definition two_cases : string :=
  dquoted "{'testCases': [{'testCaseId': 'TC-001'}, {'testCaseId': 'TC-002'}]}".

Definition three_cases : string :=
  dquoted "{'testCases': [{'testCaseId': 'TC-001'}, {'testCaseId': 'TC-002'}, {'testCaseId': 'TC-003'}]}".

Definition four_cases : string :=
  dquoted "{'testCases': [{'testCaseId': 'TC-001'}, {'testCaseId': 'TC-002'}, {'testCaseId': 'TC-003'}, {'testCaseId': 'TC-004'}]}".

(** Three test cases together with a question of the model's own. *)
Definition cases_and_question : string :=
  dquoted "{'testCases': [{'testCaseId': 'TC-001'}, {'testCaseId': 'TC-002'}, {'testCaseId': 'TC-003'}], 'followUpQuestions': ['Which roles?']}".

Definition story : string := "Patient consent withdrawal flow".

(** A Jira issue whose first acceptance field is an empty string and whose
    second one holds the criteria, and the answer of Jira that carries it. *)
Definition issue_text : string :=
  dquoted "{'key': 'HC-1', 'fields': {'summary': 'Withdraw consent', 'description': 'Patient withdraws consent.', 'customfield_10034': '', 'Acceptance Criteria': 'Consent is revoked'}}".

Definition jira (url : string) (headers : list (string * string))
  : result JiraService.response :=
  Ok {| JiraService.status_code := 200;
        JiraService.text := issue_text;
        JiraService.json_body := Json.loads issue_text |}.

(** A context left behind by a clarification round of user [alice]. *)
Definition alice_context : Main.context :=
  {| Main.original_text := story;
     Main.questions := JArr (map JStr (LLMService._propose_followups story));
     Main.user := "alice" |}.

End Examples.

(* ================================================================= *)
(** ** api/services/pdf_service.py *)

Module PDFService.





End PDFService.

(* ================================================================= *)
(** ** api/main.py: sessions and the activity log *)

Module MainAdmin.

(** One entry of [user_sessions]. *)
Record session : Type := {
  username : string;
  login_time : string
}.

(** [user_sessions]: token to session, in insertion order. *)
Definition sessions : Type := list (string * session).

(** [get_current_user]: the dependency every protected route resolves. *)
Definition get_current_user (token : string) (user_sessions : sessions)
  : result session :=
  match dict_get user_sessions token with
  | None => Raise (HTTPException 401 "Invalid token")
  | Some s => Ok s
  end.

(** [login].  [authenticate] is [auth_service.authenticate], a collaborator
    outside the modelled files; [token] is the value [str(uuid.uuid4())]
    takes in this request and [now] the value of [datetime.now()].  The
    response is the [LoginResponse(success=True, token=token)]. *)
Definition login (authenticate : string -> string -> result bool)
    (username password token now : string) (user_sessions : sessions)
  : result json * sessions :=
  match authenticate username password with
  | Ok true =>
      (Ok (JObj [("success", JBool true); ("token", JStr token)]),
       dict_set user_sessions token {| username := username; login_time := now |})
  | Ok false =>
      (* raise HTTPException(401), caught by [except Exception] *)
      (try_except (Raise (HTTPException 401 "Invalid credentials"))
         (fun _ => Raise (HTTPException 500 "Login failed")),
       user_sessions)
  | Raise e =>
      (try_except (Raise e) (fun _ => Raise (HTTPException 500 "Login failed")),
       user_sessions)
  end.

(** One entry of [system_logs]. *)
Record log_entry : Type := {
  timestamp : string;
  level : string;
  message : string
}.

(** [log_activity]: append one entry, stamped with [now]. *)
Definition log_activity (now level message : string) (system_logs : list log_entry)
  : list log_entry :=
  (system_logs ++ [{| timestamp := now; level := level; message := message |}])%list.

(** [l[lo:]] for a list. *)
Definition list_from {A : Type} (l : list A) (lo : Z) : list A :=
  skipn (Z.to_nat (clamp (Z.of_nat (List.length l)) lo)) l.

(** [get_logs]: [system_logs[-100:]]. *)
Definition get_logs (system_logs : list log_entry) : list log_entry :=
  list_from system_logs (-100).

(** [clear_logs]: empty the log, then record who did it. *)
Definition clear_logs (now current_user : string) (system_logs : list log_entry)
  : list log_entry :=
  log_activity now "INFO" ("System logs cleared by " ++ current_user) [].

End MainAdmin.

(* ================================================================= *)
(** ** Shapes of the data the Jira walk expects *)

Module Adf.

Fixpoint concat (parts : list string) : string :=
  match parts with
  | [] => ""
  | p :: rest => p ++ concat rest
  end.

(** An inline node: a dict whose ['text'] is the string [t], or a dict
    without ['text'], which stands for the empty text. *)
Definition inner_text (inner : json) (t : string) : Prop :=
  exists m, inner = JObj m /\
    (dict_get m "text" = Some (JStr t) \/ (dict_get m "text" = None /\ t = "")).

(** A block: a dict whose ['content'] is a list of inline nodes. *)
Definition block_text (block : json) (ts : list string) : Prop :=
  exists m inners, block = JObj m /\
    dict_get m "content" = Some (JArr inners) /\ Forall2 inner_text inners ts.

End Adf.

(* ================================================================= *)
(** * Properties *)

(** ** Strings: [find], [rfind] and slices *)

Section StringFacts.

Lemma find_cons (c a : ascii) (s : string) :
  find c (String a s) =
    if Ascii.eqb a c then 0%Z
    else if (find c s =? -1)%Z then (-1)%Z else (find c s + 1)%Z.
Proof.
  simpl. destruct (Ascii.eqb a c); [reflexivity|].
  destruct (find c s) as [|q|[q|q|]]; reflexivity.
Qed.

Lemma rfind_cons (c a : ascii) (s : string) :
  rfind c (String a s) =
    if (rfind c s =? -1)%Z then (if Ascii.eqb a c then 0%Z else (-1)%Z)
    else (rfind c s + 1)%Z.
Proof.
  simpl. destruct (rfind c s) as [|q|[q|q|]]; reflexivity.
Qed.

Lemma length_append (a b : string) :
  String.length (a ++ b) = (String.length a + String.length b)%nat.
Proof.
  induction a as [|c a IH]; simpl; [reflexivity | now rewrite IH].
Qed.

Lemma append_assoc (a b c : string) : (a ++ b) ++ c = a ++ b ++ c.
Proof.
  induction a as [|x a IH]; simpl; [reflexivity | now rewrite IH].
Qed.

Lemma append_nil_r (a : string) : a ++ "" = a.
Proof.
  induction a as [|x a IH]; simpl; [reflexivity | now rewrite IH].
Qed.

Lemma find_absent (c : ascii) (s : string) :
  occurs c s = false -> find c s = (-1)%Z.
Proof.
  induction s as [|a s IH]; intros H; [reflexivity|].
  simpl in H. apply orb_false_iff in H as [Ha Hs].
  rewrite find_cons, Ha, (IH Hs). reflexivity.
Qed.

Lemma find_first (c : ascii) (a r : string) :
  occurs c a = false -> find c (a ++ String c r) = Z.of_nat (String.length a).
Proof.
  induction a as [|x a IH]; intros H.
  - simpl. now rewrite Ascii.eqb_refl.
  - simpl in H. apply orb_false_iff in H as [Hx Ha].
    change (String x a ++ String c r) with (String x (a ++ String c r)).
    rewrite find_cons, Hx, (IH Ha).
    destruct (Z.eqb_spec (Z.of_nat (String.length a)) (-1)); [lia|].
    simpl String.length. lia.
Qed.

Lemma find_cases (c : ascii) (s : string) :
  (occurs c s = false /\ find c s = (-1)%Z) \/
  (exists a r, s = a ++ String c r /\ occurs c a = false).
Proof.
  induction s as [|x s IH].
  - now left.
  - destruct (Ascii.eqb x c) eqn:E.
    + right. apply Ascii.eqb_eq in E; subst x. now exists "", s.
    + destruct IH as [[Ho Hf] | (a & r & -> & Ha)].
      * left. rewrite find_cons, E, Hf. simpl. now rewrite E, Ho.
      * right. exists (String x a), r. simpl. now rewrite E, Ha.
Qed.

Lemma rfind_absent (c : ascii) (s : string) :
  occurs c s = false -> rfind c s = (-1)%Z.
Proof.
  induction s as [|a s IH]; intros H; [reflexivity|].
  simpl in H. apply orb_false_iff in H as [Ha Hs].
  rewrite rfind_cons, (IH Hs), Ha. reflexivity.
Qed.

Lemma rfind_last (c : ascii) (a b : string) :
  occurs c b = false -> rfind c (a ++ String c b) = Z.of_nat (String.length a).
Proof.
  intros Hb. induction a as [|x a IH].
  - simpl append. rewrite rfind_cons, (rfind_absent _ _ Hb), Ascii.eqb_refl.
    reflexivity.
  - change (String x a ++ String c b) with (String x (a ++ String c b)).
    rewrite rfind_cons, IH.
    destruct (Z.eqb_spec (Z.of_nat (String.length a)) (-1)); [lia|].
    simpl String.length. lia.
Qed.

Lemma rfind_cases (c : ascii) (s : string) :
  (occurs c s = false /\ rfind c s = (-1)%Z) \/
  (exists a b, s = a ++ String c b /\ occurs c b = false).
Proof.
  induction s as [|x s IH].
  - now left.
  - destruct IH as [[Ho Hf] | (a & b & -> & Hb)].
    + destruct (Ascii.eqb x c) eqn:E.
      * right. apply Ascii.eqb_eq in E; subst x. now exists "", s.
      * left. rewrite rfind_cons, Hf. simpl. now rewrite E, Ho.
    + right. now exists (String x a), b.
Qed.

Lemma occurs_append (c : ascii) (a b : string) :
  occurs c (a ++ b) = occurs c a || occurs c b.
Proof.
  induction a as [|x a IH]; simpl; [reflexivity|].
  now rewrite IH, orb_assoc.
Qed.

Lemma substring_skip (a x : string) (n : nat) :
  String.substring (String.length a) n (a ++ x) = String.substring 0 n x.
Proof.
  induction a as [|c a IH]; simpl; [reflexivity | exact IH].
Qed.

Lemma substring_prefix (x b : string) :
  String.substring 0 (String.length x) (x ++ b) = x.
Proof.
  induction x as [|c x IH]; simpl.
  - now destruct b.
  - now rewrite IH.
Qed.

Lemma clamp_in_range (n i : Z) : (0 <= i <= n)%Z -> clamp n i = i.
Proof.
  intros H. unfold clamp. destruct (Z.ltb_spec i 0); lia.
Qed.

(** [(a + x + b)[len(a) : len(a) + len(x)] == x]. *)
Lemma slice_middle (a x b : string) :
  slice (a ++ x ++ b) (Z.of_nat (String.length a))
        (Z.of_nat (String.length a) + Z.of_nat (String.length x)) = x.
Proof.
  unfold slice. rewrite !length_append, !clamp_in_range by lia.
  rewrite Nat2Z.id.
  replace (Z.to_nat (Z.of_nat (String.length a) + Z.of_nat (String.length x)
                     - Z.of_nat (String.length a)))
    with (String.length x) by lia.
  rewrite substring_skip. apply substring_prefix.
Qed.

(** Two ways to cut one text at a character, the first cut being the
    earlier one. *)
Lemma append_cut (a a' : string) (c d : ascii) (r b : string) :
  a ++ String c r = a' ++ String d b ->
  (String.length a < String.length a')%nat ->
  exists mid, a' = a ++ String c mid /\ r = mid ++ String d b.
Proof.
  revert a'. induction a as [|x a IH]; intros [|y a']; simpl; intros E L; try lia.
  - injection E as -> ->. now exists a'.
  - injection E as -> E. destruct (IH a' E) as (mid & -> & ->); [lia|].
    now exists mid.
Qed.

End StringFacts.

(* ----------------------------------------------------------------- *)
(** ** The response parser, [LLMService._safe_parse_json] *)

Section ParserFacts.

Variable loads : string -> result json.

(** The first [{] of a text lies at or before any other [{]. *)
Lemma first_is_least (c : ascii) (a0 r0 a r : string) :
  a0 ++ String c r0 = a ++ String c r ->
  occurs c a0 = false ->
  (String.length a0 <= String.length a)%nat.
Proof.
  intros E H0.
  destruct (Nat.le_gt_cases (String.length a0) (String.length a)) as [|L]; [assumption|].
  symmetry in E. destruct (append_cut _ _ _ _ _ _ E L) as (mid & -> & _).
  rewrite occurs_append in H0. simpl in H0.
  rewrite Ascii.eqb_refl, orb_true_r in H0. discriminate.
Qed.

(** The last [}] of a text lies at or after any other [}]. *)
Lemma last_is_greatest (c : ascii) (a1 b1 a b : string) :
  a1 ++ String c b1 = a ++ String c b ->
  occurs c b1 = false ->
  (String.length a <= String.length a1)%nat.
Proof.
  intros E H1.
  destruct (Nat.le_gt_cases (String.length a) (String.length a1)) as [|L]; [assumption|].
  destruct (append_cut _ _ _ _ _ _ E L) as (mid & _ & ->).
  rewrite occurs_append in H1. simpl in H1.
  rewrite Ascii.eqb_refl, orb_true_r in H1. discriminate.
Qed.

(** A text with a [{] and a later [}] splits at its first [{] and its
    last [}]. *)
Lemma brace_pair_canonical (text a mid b : string) :
  text = a ++ "{" ++ mid ++ "}" ++ b ->
  exists a0 mid0 b0,
    text = a0 ++ "{" ++ mid0 ++ "}" ++ b0 /\
    occurs "{" a0 = false /\ occurs "}" b0 = false.
Proof.
  intros E.
  destruct (find_cases "{" text) as [[Ho _] | (a0 & r0 & E0 & H0)].
  { rewrite E in Ho. repeat rewrite occurs_append in Ho. simpl in Ho.
    destruct (occurs "{" a); discriminate. }
  destruct (rfind_cases "}" text) as [[Ho _] | (a1 & b1 & E1 & H1)].
  { rewrite E in Ho. repeat rewrite occurs_append in Ho. simpl in Ho.
    destruct (occurs "}" a), (occurs "}" mid); discriminate. }
  assert (L0 : (String.length a0 <= String.length a)%nat).
  { apply (first_is_least "{" a0 r0 a (mid ++ "}" ++ b)); [|assumption].
    rewrite <- E0, E. reflexivity. }
  assert (L1 : (String.length (a ++ "{" ++ mid) <= String.length a1)%nat).
  { apply (last_is_greatest "}" a1 b1 (a ++ "{" ++ mid) b); [|assumption].
    rewrite <- E1, E, !append_assoc. reflexivity. }
  rewrite length_append in L1. simpl in L1.
  assert (E2 : a0 ++ String "{" r0 = a1 ++ String "}" b1) by congruence.
  destruct (append_cut _ _ _ _ _ _ E2) as (mid0 & -> & ->); [lia|].
  exists a0, mid0, b1. repeat split; assumption.
Qed.

Lemma parse_strict (text : string) (v : json) :
  loads text = Ok v -> LLMService._safe_parse_json loads text = Ok v.
Proof.
  intros H. unfold LLMService._safe_parse_json. now rewrite H.
Qed.

(** The fallback: the substring from the first [{] through the last [}]. *)
Lemma parse_fallback (a mid b : string) (e : exn) :
  loads (a ++ "{" ++ mid ++ "}" ++ b) = Raise e ->
  occurs "{" a = false -> occurs "}" b = false ->
  LLMService._safe_parse_json loads (a ++ "{" ++ mid ++ "}" ++ b) =
    Ok (match loads ("{" ++ mid ++ "}") with Ok v => v | Raise _ => JNull end).
Proof.
  intros Hl Ha Hb.
  assert (Hf : find "{" (a ++ "{" ++ mid ++ "}" ++ b) = Z.of_nat (String.length a)).
  { apply (find_first "{" a (mid ++ "}" ++ b) Ha). }
  assert (Hr : rfind "}" (a ++ "{" ++ mid ++ "}" ++ b)
               = Z.of_nat (String.length (a ++ "{" ++ mid))).
  { replace (a ++ "{" ++ mid ++ "}" ++ b) with ((a ++ "{" ++ mid) ++ String "}" b)
      by (rewrite !append_assoc; reflexivity).
    apply rfind_last, Hb. }
  assert (Hs : slice (a ++ "{" ++ mid ++ "}" ++ b) (Z.of_nat (String.length a))
                 (Z.of_nat (String.length (a ++ "{" ++ mid)) + 1)
               = "{" ++ mid ++ "}").
  { replace (Z.of_nat (String.length (a ++ "{" ++ mid)) + 1)%Z
      with (Z.of_nat (String.length a)
            + Z.of_nat (String.length ("{" ++ mid ++ "}")))%Z.
    2:{ repeat first [rewrite length_append | progress (simpl String.length)]. lia. }
    replace (a ++ "{" ++ mid ++ "}" ++ b) with (a ++ ("{" ++ mid ++ "}") ++ b)
      by (simpl; rewrite append_assoc; reflexivity).
    apply slice_middle. }
  rewrite length_append in Hr, Hs. simpl String.length in Hr, Hs.
  remember (a ++ "{" ++ mid ++ "}" ++ b) as text eqn:Et.
  unfold LLMService._safe_parse_json. rewrite Hl. cbv beta iota delta [try_except].
  rewrite Hf, Hr, Hs.
  destruct (Z.eqb_spec (Z.of_nat (String.length a)) (-1)); [lia|].
  destruct (Z.eqb_spec (Z.of_nat (String.length a + S (String.length mid))) (-1)); [lia|].
  destruct (Z.ltb_spec (Z.of_nat (String.length a))
              (Z.of_nat (String.length a + S (String.length mid)))); [|lia].
  simpl negb. simpl andb. cbv iota.
  destruct (loads ("{" ++ mid ++ "}")); reflexivity.
Qed.

(** Without a [{] followed by a [}] there is nothing to fall back on. *)
Lemma parse_no_braces (text : string) (e : exn) :
  loads text = Raise e ->
  ~ (exists a mid b, text = a ++ "{" ++ mid ++ "}" ++ b) ->
  LLMService._safe_parse_json loads text = Ok JNull.
Proof.
  intros Hl Hn. unfold LLMService._safe_parse_json. rewrite Hl. simpl try_except.
  destruct (find_cases "{" text) as [[_ Hf] | (a0 & r0 & E0 & H0)].
  { rewrite Hf. reflexivity. }
  destruct (rfind_cases "}" text) as [[_ Hr] | (a1 & b1 & E1 & H1)].
  { rewrite Hr. simpl. now rewrite andb_false_r. }
  assert (Hf : find "{" text = Z.of_nat (String.length a0))
    by (rewrite E0; now apply find_first).
  assert (Hr : rfind "}" text = Z.of_nat (String.length a1))
    by (rewrite E1; now apply rfind_last).
  rewrite Hf, Hr.
  destruct (Z.ltb_spec (Z.of_nat (String.length a0)) (Z.of_nat (String.length a1))) as [L|L].
  - exfalso. apply Hn.
    assert (E2 : a0 ++ String "{" r0 = a1 ++ String "}" b1) by congruence.
    destruct (append_cut _ _ _ _ _ _ E2) as (mid0 & -> & ->); [lia|].
    now exists a0, mid0, b1.
  - now rewrite andb_false_r.
Qed.

End ParserFacts.

(** C4.  Whatever the text and whatever the strict parser does with it, the
    response parser returns and does not raise.  It returns the strict parse
    of the whole text when that succeeds.  Otherwise, when the text holds a
    [{] and a later [}], it returns the strict parse of the substring from
    the first [{] through the last [}], or [None] when that parse fails too;
    and when the text holds no such pair it returns [None]. *)
Theorem safe_parse_json_never_raises
    (loads : string -> result json) (text : string) :
  (exists v, LLMService._safe_parse_json loads text = Ok v) /\
  (forall v, loads text = Ok v -> LLMService._safe_parse_json loads text = Ok v) /\
  (forall e, loads text = Raise e ->
     (exists a mid b, text = a ++ "{" ++ mid ++ "}" ++ b) ->
     exists a0 mid0 b0,
       text = a0 ++ "{" ++ mid0 ++ "}" ++ b0 /\
       occurs "{" a0 = false /\ occurs "}" b0 = false /\
       LLMService._safe_parse_json loads text =
         Ok (match loads ("{" ++ mid0 ++ "}") with Ok v => v | Raise _ => JNull end)) /\
  (forall e, loads text = Raise e ->
     ~ (exists a mid b, text = a ++ "{" ++ mid ++ "}" ++ b) ->
     LLMService._safe_parse_json loads text = Ok JNull).
Proof.
  split; [|split; [|split]].
  - unfold LLMService._safe_parse_json.
    destruct (loads text) as [v|e]; simpl; [now exists v|].
    match goal with |- context [if ?c then _ else _] => destruct c end.
    + match goal with |- context [loads ?t] => destruct (loads t) as [v|e'] end;
        simpl; eauto.
    + eauto.
  - apply parse_strict.
  - intros e Hl (a & mid & b & E).
    destruct (brace_pair_canonical _ _ _ _ E) as (a0 & mid0 & b0 & E0 & Ha & Hb).
    exists a0, mid0, b0. repeat split; try assumption.
    subst text. rewrite E0 in *. now apply (parse_fallback loads a0 mid0 b0 e).
  - apply parse_no_braces.
Qed.

Lemma safe_parse_json_never_raises_witness :
  LLMService._safe_parse_json Json.loads (dquoted "{'testCases': []}")
    = Ok (JObj [("testCases", JArr [])]) /\
  LLMService._safe_parse_json Json.loads "I cannot help with that." = Ok JNull.
Proof.
  split.
  - apply (proj1 (proj2 (safe_parse_json_never_raises Json.loads _))).
    reflexivity.
  - apply (proj2 (proj2 (proj2 (safe_parse_json_never_raises Json.loads _)))
             JSONDecodeError).
    + reflexivity.
    + intros (a & mid & b & E).
      apply (f_equal (occurs "{")) in E. rewrite occurs_append in E. simpl in E.
      rewrite orb_true_r in E. discriminate.
Defined.

(** C7, as amended.  Let [j] be a text that runs from a [{] to a [}], such
    as a JSON object, [p] a prefix without [{] and [s] a suffix without [}],
    and let the strict parser reject [p + j + s].  Then parsing [p + j + s]
    gives what parsing [j] alone gives. *)
Theorem safe_parse_json_ignores_prose
    (loads : string -> result json) (p j s mid : string) (e : exn) :
  j = "{" ++ mid ++ "}" ->
  occurs "{" p = false ->
  occurs "}" s = false ->
  loads (p ++ j ++ s) = Raise e ->
  LLMService._safe_parse_json loads (p ++ j ++ s) = LLMService._safe_parse_json loads j.
Proof.
  intros -> Hp Hs Hl.
  assert (E : p ++ ("{" ++ mid ++ "}") ++ s = p ++ "{" ++ mid ++ "}" ++ s)
    by (simpl; now rewrite append_assoc).
  rewrite E in *. rewrite (parse_fallback loads p mid s e Hl Hp Hs).
  destruct (loads ("{" ++ mid ++ "}")) as [v|e'] eqn:Hj.
  - symmetry. now apply parse_strict.
  - pose proof (parse_fallback loads "" mid "" e') as F.
    simpl in F, Hj |- *. rewrite Hj in F. symmetry. now apply F.
Qed.

Lemma safe_parse_json_ignores_prose_witness :
  LLMService._safe_parse_json Json.loads
    ("Here you go: " ++ dquoted "{'testCases': [{'title': 'Consent'}]}" ++ " Anything else?")
  = LLMService._safe_parse_json Json.loads (dquoted "{'testCases': [{'title': 'Consent'}]}").
Proof.
  apply (safe_parse_json_ignores_prose Json.loads "Here you go: " _ " Anything else?"
           (dquoted "'testCases': [{'title': 'Consent'}]") JSONDecodeError);
    reflexivity.
Defined.

(** C7, as stated, fails: a valid JSON array that holds one object, wrapped
    in prose, is one balanced brace region, yet the wrapped text parses to
    the inner object and the array alone parses to the array. *)
Lemma safe_parse_json_prose_counterexample :
  Json.loads (dquoted "[{'a': 1}]") = Ok (JArr [JObj [("a", JInt 1)]]) /\
  raises (Json.loads "Result: ") = true /\
  raises (Json.loads " Done.") = true /\
  Spec.balanced_regions ("Result: " ++ dquoted "[{'a': 1}]" ++ " Done.") = Some 1%nat /\
  LLMService._safe_parse_json Json.loads ("Result: " ++ dquoted "[{'a': 1}]" ++ " Done.")
    = Ok (JObj [("a", JInt 1)]) /\
  LLMService._safe_parse_json Json.loads (dquoted "[{'a': 1}]")
    = Ok (JArr [JObj [("a", JInt 1)]]) /\
  LLMService._safe_parse_json Json.loads ("Result: " ++ dquoted "[{'a': 1}]" ++ " Done.")
    <> LLMService._safe_parse_json Json.loads (dquoted "[{'a': 1}]").
Proof.
  repeat split; try reflexivity. vm_compute. discriminate.
Qed.

(* ----------------------------------------------------------------- *)
(** ** The generation and refinement runs of [LLMService] *)

Section ServiceFacts.

Variable loads : string -> result json.
Variable llm : string -> result string.
Variable repr : json -> string.

(** What a run returns once the model has answered and the answer has
    been parsed. *)
Lemma generate_test_cases_eq (source : string) (max_cases : Z) (enable : bool)
    (content : string) (parsed : json) :
  llm (LLMService._build_generation_prompt source max_cases) = Ok content ->
  LLMService._safe_parse_json loads content = Ok parsed ->
  LLMService.generate_test_cases loads llm source max_cases enable =
    (ask <- LLMService.wants_followups (LLMService.or_empty parsed) enable ;;
     if ask
     then Ok (JObj [("followUpQuestions",
                     JArr (map JStr (LLMService._propose_followups source)))])
     else Ok (LLMService.or_empty parsed)).
Proof.
  intros Hc Hp. unfold LLMService.generate_test_cases.
  rewrite Hc. simpl. rewrite Hp. reflexivity.
Qed.

Lemma generate_refined_test_cases_eq (source : string) (questions : json)
    (qs : list json) (answers : list (string * string)) (max_cases : Z)
    (content : string) (parsed : json) :
  iter questions = Ok qs ->
  llm (LLMService._build_refinement_prompt source
         (LLMService.qa_block repr qs answers) max_cases) = Ok content ->
  LLMService._safe_parse_json loads content = Ok parsed ->
  LLMService.generate_refined_test_cases loads llm repr source questions answers max_cases
    = Ok (LLMService.or_empty parsed).
Proof.
  intros Hq Hc Hp. unfold LLMService.generate_refined_test_cases.
  rewrite Hq. simpl. rewrite Hc. simpl. rewrite Hp. reflexivity.
Qed.

Lemma or_empty_falsy (parsed : json) :
  truthy parsed = false -> LLMService.or_empty parsed = LLMService.empty_result.
Proof.
  intros H. unfold LLMService.or_empty. now rewrite H.
Qed.

Lemma or_empty_truthy (parsed : json) :
  truthy parsed = true -> LLMService.or_empty parsed = parsed.
Proof.
  intros H. unfold LLMService.or_empty. now rewrite H.
Qed.

(** The test on line 24 for a dict whose ['testCases'] is a list. *)
Lemma wants_followups_list (m : list (string * json)) (tcs : list json) (enable : bool) :
  dict_get m "testCases" = Some (JArr tcs) ->
  LLMService.wants_followups (JObj m) enable
    = Ok (enable && (Z.of_nat (List.length tcs) <? 3)%Z).
Proof.
  intros H. unfold LLMService.wants_followups, get. rewrite H.
  destruct enable; [|reflexivity]. simpl.
  destruct tcs as [|t tcs]; reflexivity.
Qed.

(** The same test for a dict without ['testCases']. *)
Lemma wants_followups_missing (m : list (string * json)) (enable : bool) :
  dict_get m "testCases" = None ->
  LLMService.wants_followups (JObj m) enable = Ok enable.
Proof.
  intros H. unfold LLMService.wants_followups, get. rewrite H.
  destruct enable; reflexivity.
Qed.

(** On anything but a dict the test raises, unless follow-ups are off. *)
Lemma wants_followups_not_dict (v : json) :
  is_dict v = false ->
  LLMService.wants_followups v true = Raise AttributeError.
Proof.
  destruct v; simpl; intros H; try reflexivity; discriminate.
Qed.

End ServiceFacts.

(* ----------------------------------------------------------------- *)
(** ** The request handlers of [main.py] *)

Section HandlerFacts.

Variable loads : string -> result json.
Variable llm : string -> result string.
Variable repr : json -> string.
Variable exn_str : exn -> string.
Variable admin_settings : Main.settings.

Lemma get_truthy_getitem (v fq : json) (k : string) :
  get v k JNull = Ok fq -> truthy fq = true -> getitem v k = Ok fq.
Proof.
  destruct v; simpl; try discriminate.
  destruct (dict_get members k) as [x|]; intros H T; injection H as <-;
    [reflexivity | discriminate].
Qed.

(** The clarification branch of lines 118-129. *)
Lemma respond_questions (source : string) (result fq : json)
    (current_user context_id : string) (st : Main.store) :
  get result "followUpQuestions" JNull = Ok fq ->
  truthy fq = true ->
  Main.respond source result current_user context_id st =
    (Ok (JObj [("followUpQuestions", fq); ("contextId", JStr context_id)]),
     dict_set st context_id
       {| Main.original_text := source; Main.questions := fq;
          Main.user := current_user |}).
Proof.
  intros Hg Ht. pose proof (get_truthy_getitem _ _ _ Hg Ht) as Hi.
  unfold Main.respond, Main.bindM, Main.lift, Main.ret, Main.read_store,
    Main.write_store.
  rewrite Hg, Ht, Hi. reflexivity.
Qed.

(** The test-case branch of lines 130-132. *)
Lemma respond_cases (source : string) (result fq : json)
    (current_user context_id : string) (st : Main.store) :
  get result "followUpQuestions" JNull = Ok fq ->
  truthy fq = false ->
  Main.respond source result current_user context_id st =
    (tc <- getitem result "testCases" ;;
     len tc ;;;
     Ok (JObj [("testCases", tc)]), st).
Proof.
  intros Hg Ht.
  unfold Main.respond, Main.bindM, Main.lift, Main.ret.
  rewrite Hg, Ht.
  destruct (getitem result "testCases") as [tc|e]; simpl; [|reflexivity].
  destruct (len tc); reflexivity.
Qed.

Lemma respond_not_dict (source : string) (result : json)
    (current_user context_id : string) (st : Main.store) :
  is_dict result = false ->
  Main.respond source result current_user context_id st = (Raise AttributeError, st).
Proof.
  destruct result; simpl; intros H; try reflexivity; discriminate.
Qed.

(** [upload_file] once the upload is a PDF whose text was extracted. *)
Lemma upload_file_eq (filename source current_user context_id : string)
    (st : Main.store) :
  Main.endswith filename ".pdf" = true ->
  Main.upload_file loads llm exn_str admin_settings filename (Ok source)
      current_user context_id st =
    match LLMService.generate_test_cases loads llm source
            (Main.maxTestCases admin_settings)
            (Main.enableFollowUpQuestions admin_settings) with
    | Ok result =>
        match Main.respond source result current_user context_id st with
        | (Ok r, st') => (Ok r, st')
        | (Raise e, st') =>
            (Raise (HTTPException 500 ("Failed to process file: " ++ exn_str e)), st')
        end
    | Raise e =>
        (Raise (HTTPException 500 ("Failed to process file: " ++ exn_str e)), st)
    end.
Proof.
  intros Hf.
  unfold Main.upload_file, Main.try_exceptM, Main.bindM, Main.lift, Main.ret, Main.raise.
  rewrite Hf. change (negb true) with false. cbv beta iota.
  destruct (LLMService.generate_test_cases _ _ _ _ _) as [result|e]; [|reflexivity].
  destruct (Main.respond _ _ _ _ _) as [[r|e] st']; reflexivity.
Qed.

(** A response of [respond] has one of two shapes. *)
Lemma respond_shape (source : string) (result : json)
    (current_user context_id : string) (st st' : Main.store) (r : json) :
  Main.respond source result current_user context_id st = (Ok r, st') ->
  (exists fq, truthy fq = true /\
     r = JObj [("followUpQuestions", fq); ("contextId", JStr context_id)]) \/
  (exists tc, r = JObj [("testCases", tc)]).
Proof.
  intros H.
  destruct (get result "followUpQuestions" JNull) as [fq|e] eqn:Hg.
  - destruct (truthy fq) eqn:Ht.
    + rewrite (respond_questions _ _ _ _ _ _ Hg Ht) in H.
      injection H as <- _. left. now exists fq.
    + rewrite (respond_cases _ _ _ _ _ _ Hg Ht) in H.
      destruct (getitem result "testCases") as [tc|e]; simpl in H; [|discriminate].
      destruct (len tc); simpl in H; [|discriminate].
      injection H as <- _. right. now exists tc.
  - unfold Main.respond, Main.bindM, Main.lift in H. rewrite Hg in H. discriminate.
Qed.

End HandlerFacts.

(* ----------------------------------------------------------------- *)
(** ** When a generation run asks for clarifications *)

Section ClarificationFacts.

Variable loads : string -> result json.
Variable llm : string -> result string.
Variable exn_str : exn -> string.
Variable admin_settings : Main.settings.

Lemma wants_followups_falsy (m : list (string * json)) (v : json) (enable : bool) :
  dict_get m "testCases" = Some v ->
  truthy v = false ->
  LLMService.wants_followups (JObj m) enable = Ok enable.
Proof.
  intros G T. unfold LLMService.wants_followups, get. rewrite G.
  destruct enable; [|reflexivity]. simpl. now rewrite T.
Qed.

Lemma listed_cases_wants (parsed : json) (tcs : list json) (enable : bool) :
  Spec.listed_cases parsed = Some tcs ->
  LLMService.wants_followups (LLMService.or_empty parsed) enable
    = Ok (enable && (Z.of_nat (List.length tcs) <? 3)%Z).
Proof.
  unfold Spec.listed_cases, LLMService.or_empty.
  destruct (truthy parsed) eqn:T; simpl negb; cbv iota.
  - destruct parsed as [| | | | |l|m]; try discriminate.
    destruct (Spec.own_followups m); [discriminate|].
    destruct (dict_get m "testCases") as [v|] eqn:G.
    + destruct v as [| b | z | f | s | l | m'];
        try (match goal with
             | |- (if truthy ?x then _ else _) = _ -> _ => destruct (truthy x) eqn:Tv
             end; [discriminate|];
             intros H; injection H as <-;
             rewrite (wants_followups_falsy _ _ _ G Tv);
             now rewrite andb_true_r).
      intros H; injection H as <-. now apply wants_followups_list.
    + intros H; injection H as <-. rewrite (wants_followups_missing _ _ G).
      now rewrite andb_true_r.
  - intros H; injection H as <-. destruct enable; reflexivity.
Qed.

Lemma listed_cases_own (parsed : json) (tcs : list json) :
  Spec.listed_cases parsed = Some tcs ->
  exists m, LLMService.or_empty parsed = JObj m /\ Spec.own_followups m = false.
Proof.
  unfold Spec.listed_cases, LLMService.or_empty.
  destruct (truthy parsed) eqn:T; simpl negb; cbv iota.
  - destruct parsed as [| | | | |l|m]; try discriminate.
    destruct (Spec.own_followups m) eqn:O; [discriminate|]. now exists m.
  - intros _. now exists [("testCases", JArr [])].
Qed.

Lemma own_followups_get (m : list (string * json)) :
  Spec.own_followups m = false ->
  exists fq, get (JObj m) "followUpQuestions" JNull = Ok fq /\ truthy fq = false.
Proof.
  unfold Spec.own_followups, get.
  destruct (dict_get m "followUpQuestions") as [v|]; intros H.
  - now exists v.
  - now exists JNull.
Qed.

Lemma generate_listed (source content : string) (parsed : json) (tcs : list json) :
  llm (LLMService._build_generation_prompt source (Main.maxTestCases admin_settings))
    = Ok content ->
  LLMService._safe_parse_json loads content = Ok parsed ->
  Spec.listed_cases parsed = Some tcs ->
  LLMService.generate_test_cases loads llm source (Main.maxTestCases admin_settings)
      (Main.enableFollowUpQuestions admin_settings) =
    if Main.enableFollowUpQuestions admin_settings && (Z.of_nat (List.length tcs) <? 3)%Z
    then Ok (Spec.bundle source)
    else Ok (LLMService.or_empty parsed).
Proof.
  intros Hc Hp Hl.
  rewrite (generate_test_cases_eq loads llm _ _ _ _ _ Hc Hp).
  rewrite (listed_cases_wants _ _ _ Hl). reflexivity.
Qed.

End ClarificationFacts.

(** C3, as amended.  Take a generation run in which the model's response is
    unparsable or empty, or parses to an object that brings no follow-up
    questions of its own and whose ['testCases'] entry is absent, empty or a
    list.  Then [generate_test_cases] returns the fixed follow-up questions
    exactly when the setting is on and fewer than 3 test cases were parsed,
    and the upload request answers with follow-up questions exactly then.
    With the setting on, 2 test cases ask for clarifications and 3 do not. *)
Theorem clarification_threshold
    (loads : string -> result json) (llm : string -> result string)
    (exn_str : exn -> string) (admin_settings : Main.settings)
    (filename source current_user context_id content : string)
    (st : Main.store) (parsed : json) (tcs : list json) :
  Main.endswith filename ".pdf" = true ->
  llm (LLMService._build_generation_prompt source (Main.maxTestCases admin_settings))
    = Ok content ->
  LLMService._safe_parse_json loads content = Ok parsed ->
  Spec.listed_cases parsed = Some tcs ->
  (LLMService.generate_test_cases loads llm source (Main.maxTestCases admin_settings)
       (Main.enableFollowUpQuestions admin_settings) = Ok (Spec.bundle source)
     <-> Main.enableFollowUpQuestions admin_settings = true /\ (List.length tcs < 3)%nat) /\
  (Spec.carries "followUpQuestions"
       (fst (Main.upload_file loads llm exn_str admin_settings filename (Ok source)
               current_user context_id st)) = true
     <-> Main.enableFollowUpQuestions admin_settings = true /\ (List.length tcs < 3)%nat) /\
  (Main.enableFollowUpQuestions admin_settings = true ->
     (List.length tcs = 2%nat ->
        LLMService.generate_test_cases loads llm source (Main.maxTestCases admin_settings)
          true = Ok (Spec.bundle source)) /\
     (List.length tcs = 3%nat ->
        LLMService.generate_test_cases loads llm source (Main.maxTestCases admin_settings)
          true = Ok parsed)).
Proof.
  intros Hf Hc Hp Hl.
  pose proof (generate_listed loads llm admin_settings _ _ _ _ Hc Hp Hl) as G.
  destruct (listed_cases_own _ _ Hl) as (m & Em & Om).
  assert (Hb : forall b : bool,
             b && (Z.of_nat (List.length tcs) <? 3)%Z = true
             <-> b = true /\ (List.length tcs < 3)%nat).
  { intros b. rewrite andb_true_iff, Z.ltb_lt. intuition lia. }
  split; [|split].
  - rewrite G.
    destruct (Main.enableFollowUpQuestions admin_settings
              && (Z.of_nat (List.length tcs) <? 3)%Z) eqn:A.
    + split; [intros _; now apply Hb | reflexivity].
    + split.
      * rewrite Em. intros H. injection H as ->. discriminate.
      * intros H. apply Hb in H. congruence.
  - rewrite (upload_file_eq loads llm exn_str admin_settings _ _ _ _ _ Hf), G.
    destruct (Main.enableFollowUpQuestions admin_settings
              && (Z.of_nat (List.length tcs) <? 3)%Z) eqn:A.
    + rewrite (respond_questions source (Spec.bundle source)
                 (JArr (map JStr (LLMService._propose_followups source))))
        by reflexivity.
      split; [intros _; now apply Hb | reflexivity].
    + rewrite Em. destruct (own_followups_get _ Om) as (fq & Hg & Ht).
      rewrite (respond_cases _ _ _ _ _ _ Hg Ht).
      split.
      * destruct (getitem (JObj m) "testCases") as [tc|e]; simpl; [|discriminate].
        destruct (len tc); simpl; discriminate.
      * intros H. apply Hb in H. congruence.
  - intros He. rewrite He in G. split; intros L.
    + rewrite G. now replace (Z.of_nat (List.length tcs) <? 3)%Z with true
        by (symmetry; apply Z.ltb_lt; lia).
    + rewrite G. replace (Z.of_nat (List.length tcs) <? 3)%Z with false
        by (symmetry; apply Z.ltb_ge; lia).
      simpl. f_equal. apply or_empty_truthy.
      unfold Spec.listed_cases in Hl. destruct (truthy parsed); [reflexivity|].
      simpl in Hl. injection Hl as <-. discriminate.
Qed.

(** The same threshold for a generation run started from a Jira story. *)
Lemma clarification_threshold_jira
    (loads : string -> result json) (llm : string -> result string)
    (exn_str : exn -> string) (admin_settings : Main.settings)
    (http_get : string -> list (string * string) -> result JiraService.response)
    (jiraBaseUrl storyNumber source current_user context_id content : string)
    (st : Main.store) (parsed : json) (tcs : list json) :
  JiraService.fetch_story http_get jiraBaseUrl storyNumber
    (Main.jiraToken admin_settings) = Ok source ->
  llm (LLMService._build_generation_prompt source (Main.maxTestCases admin_settings))
    = Ok content ->
  LLMService._safe_parse_json loads content = Ok parsed ->
  Spec.listed_cases parsed = Some tcs ->
  Spec.carries "followUpQuestions"
      (fst (Main.fetch_jira_story loads llm exn_str admin_settings http_get
              jiraBaseUrl storyNumber current_user context_id st)) = true
    <-> Main.enableFollowUpQuestions admin_settings = true /\ (List.length tcs < 3)%nat.
Proof.
  intros Hs Hc Hp Hl.
  pose proof (generate_listed loads llm admin_settings _ _ _ _ Hc Hp Hl) as G.
  destruct (listed_cases_own _ _ Hl) as (m & Em & Om).
  unfold Main.fetch_jira_story, Main.try_exceptM, Main.bindM, Main.lift.
  rewrite Hs, G.
  destruct (Main.enableFollowUpQuestions admin_settings) eqn:He;
    destruct (Z.ltb_spec (Z.of_nat (List.length tcs)) 3) as [L|L]; simpl andb; cbv iota.
  - rewrite (respond_questions source (Spec.bundle source)
               (JArr (map JStr (LLMService._propose_followups source))))
      by reflexivity.
    split; [intros _; split; [reflexivity | lia] | reflexivity].
  - rewrite Em. destruct (own_followups_get _ Om) as (fq & Hg & Ht).
    rewrite (respond_cases _ _ _ _ _ _ Hg Ht).
    split; [|intros [_ ?]; lia].
    destruct (getitem (JObj m) "testCases") as [tc|e]; simpl; [|discriminate].
    destruct (len tc); simpl; discriminate.
  - rewrite Em. destruct (own_followups_get _ Om) as (fq & Hg & Ht).
    rewrite (respond_cases _ _ _ _ _ _ Hg Ht).
    split; [|intros [? _]; discriminate].
    destruct (getitem (JObj m) "testCases") as [tc|e]; simpl; [|discriminate].
    destruct (len tc); simpl; discriminate.
  - rewrite Em. destruct (own_followups_get _ Om) as (fq & Hg & Ht).
    rewrite (respond_cases _ _ _ _ _ _ Hg Ht).
    split; [|intros [? _]; discriminate].
    destruct (getitem (JObj m) "testCases") as [tc|e]; simpl; [|discriminate].
    destruct (len tc); simpl; discriminate.
Qed.

Lemma clarification_threshold_witness :
  LLMService.generate_test_cases Json.loads (Examples.model Examples.two_cases)
    Examples.story 10 true = Ok (Spec.bundle Examples.story) /\
  LLMService.generate_test_cases Json.loads (Examples.model Examples.three_cases)
    Examples.story 10 true
    = Ok (JObj [("testCases",
                 JArr [Examples.tc "TC-001"; Examples.tc "TC-002"; Examples.tc "TC-003"])]).
Proof.
  split.
  - apply (proj1 (proj2 (proj2
      (clarification_threshold Json.loads (Examples.model Examples.two_cases)
         Examples.exn_name Examples.settings_on "story.pdf" Examples.story
         "alice" "ctx-1" Examples.two_cases []
         (JObj [("testCases", JArr [Examples.tc "TC-001"; Examples.tc "TC-002"])])
         [Examples.tc "TC-001"; Examples.tc "TC-002"]
         eq_refl eq_refl eq_refl eq_refl)) eq_refl)).
    reflexivity.
  - apply (proj2 (proj2 (proj2
      (clarification_threshold Json.loads (Examples.model Examples.three_cases)
         Examples.exn_name Examples.settings_on "story.pdf" Examples.story
         "alice" "ctx-1" Examples.three_cases []
         (JObj [("testCases",
                 JArr [Examples.tc "TC-001"; Examples.tc "TC-002"; Examples.tc "TC-003"])])
         [Examples.tc "TC-001"; Examples.tc "TC-002"; Examples.tc "TC-003"]
         eq_refl eq_refl eq_refl eq_refl)) eq_refl)).
    reflexivity.
Defined.

(** C3, as stated, fails in both directions.  With the setting off and three
    test cases parsed, a response that brings a ['followUpQuestions'] entry
    of its own makes the upload request store a context and answer with
    follow-up questions.  With the setting on, a response that is a JSON
    array holds no test case, and the run raises instead of asking. *)
Lemma clarification_threshold_counterexample :
  Main.enableFollowUpQuestions Examples.settings_off = false /\
  Main.upload_file Json.loads (Examples.model Examples.cases_and_question)
      Examples.exn_name Examples.settings_off "story.pdf" (Ok Examples.story)
      "alice" "ctx-1" []
    = (Ok (JObj [("followUpQuestions", JArr [JStr "Which roles?"]);
                 ("contextId", JStr "ctx-1")]),
       [("ctx-1", {| Main.original_text := Examples.story;
                     Main.questions := JArr [JStr "Which roles?"];
                     Main.user := "alice" |})]) /\
  Json.loads "[1]" = Ok (JArr [JInt 1]) /\
  LLMService.generate_test_cases Json.loads (Examples.model "[1]")
      Examples.story 10 true = Raise AttributeError /\
  Spec.carries "followUpQuestions"
    (fst (Main.upload_file Json.loads (Examples.model "[1]") Examples.exn_name
            Examples.settings_on "story.pdf" (Ok Examples.story) "alice" "ctx-1" []))
    = false.
Proof.
  repeat split; reflexivity.
Qed.

(** C10.  Some response that is valid JSON without being an object makes
    [generate_test_cases] raise: with follow-up questions enabled, every
    response that parses to a non-empty value other than a dict ends in an
    [AttributeError], and the array [[1]] is such a response.  Text that is
    no JSON at all, and the empty object, are answered with the follow-up
    questions instead. *)
Theorem generate_test_cases_raises_on_non_object :
  (forall (loads : string -> result json) (llm : string -> result string)
          (source content : string) (max_cases : Z) (v : json),
      llm (LLMService._build_generation_prompt source max_cases) = Ok content ->
      loads content = Ok v ->
      truthy v = true ->
      is_dict v = false ->
      LLMService.generate_test_cases loads llm source max_cases true
        = Raise AttributeError) /\
  (exists content items,
      Json.loads content = Ok (JArr items) /\ items <> [] /\
      forall source max_cases,
        LLMService.generate_test_cases Json.loads (Examples.model content)
          source max_cases true = Raise AttributeError) /\
  (forall source max_cases,
      LLMService.generate_test_cases Json.loads (Examples.model "Sorry, no.")
        source max_cases true = Ok (Spec.bundle source)) /\
  (forall source max_cases,
      LLMService.generate_test_cases Json.loads (Examples.model "{}")
        source max_cases true = Ok (Spec.bundle source)).
Proof.
  split; [|split; [|split]].
  - intros loads llm source content max_cases v Hc Hl Ht Hd.
    rewrite (generate_test_cases_eq loads llm _ _ _ _ _ Hc (parse_strict loads _ _ Hl)).
    rewrite (or_empty_truthy _ Ht), (wants_followups_not_dict _ Hd). reflexivity.
  - exists "[1]", [JInt 1].
    split; [reflexivity | split; [discriminate | intros; reflexivity]].
  - intros; reflexivity.
  - intros; reflexivity.
Qed.

Lemma generate_test_cases_raises_on_non_object_witness :
  LLMService.generate_test_cases Json.loads (Examples.model (dquoted "'TC-001'"))
    Examples.story 10 true = Raise AttributeError.
Proof.
  apply (proj1 generate_test_cases_raises_on_non_object Json.loads
           (Examples.model (dquoted "'TC-001'")) Examples.story (dquoted "'TC-001'")
           10 (JStr "TC-001"));
    reflexivity.
Defined.




(* ----------------------------------------------------------------- *)
(** ** Answer submission and the context store *)

Section SubmissionFacts.

Variable loads : string -> result json.
Variable llm : string -> result string.
Variable repr : json -> string.
Variable exn_str : exn -> string.
Variable admin_settings : Main.settings.

(** The handler, branch by branch. *)
Lemma submit_answers_eq (answers : list (string * string)) (current_user : string)
    (st : Main.store) :
  Main.submit_answers loads llm repr exn_str admin_settings answers current_user st =
    match Main.find_context current_user st with
    | None =>
        (Raise (HTTPException 500
                  ("Failed to process answers: "
                   ++ exn_str (HTTPException 404 "Context not found"))), st)
    | Some context =>
        (match (result <- LLMService.generate_refined_test_cases loads llm repr
                            (Main.original_text context) (Main.questions context)
                            answers (Main.maxTestCases admin_settings) ;;
                tc <- getitem result "testCases" ;;
                Ok (JObj [("testCases", tc)])) with
         | Ok r => Ok r
         | Raise e => Raise (HTTPException 500 ("Failed to process answers: " ++ exn_str e))
         end, st)
    end.
Proof.
  unfold Main.submit_answers, Main.try_exceptM, Main.bindM, Main.lift, Main.ret,
    Main.raise, Main.read_store.
  destruct (Main.find_context current_user st) as [context|]; [|reflexivity].
  destruct (LLMService.generate_refined_test_cases _ _ _ _ _ _ _) as [result|e];
    simpl; [|reflexivity].
  destruct (getitem result "testCases"); reflexivity.
Qed.

(** No path of [submit_answers] writes to the store. *)
Lemma submit_answers_store (answers : list (string * string)) (current_user : string)
    (st : Main.store) :
  snd (Main.submit_answers loads llm repr exn_str admin_settings answers current_user st)
    = st.
Proof.
  rewrite submit_answers_eq.
  destruct (Main.find_context current_user st); reflexivity.
Qed.

Lemma upload_file_shape (filename : string) (extracted : result string)
    (current_user context_id : string) (st st' : Main.store) (r : json) :
  Main.upload_file loads llm exn_str admin_settings filename extracted
      current_user context_id st = (Ok r, st') ->
  Spec.is_clarification context_id r \/ Spec.is_test_cases r.
Proof.
  unfold Main.upload_file, Main.try_exceptM, Main.bindM, Main.lift, Main.ret, Main.raise.
  destruct (negb (Main.endswith filename ".pdf")); [discriminate|].
  destruct extracted as [source|e]; [|discriminate].
  destruct (LLMService.generate_test_cases _ _ _ _ _) as [result|e]; [|discriminate].
  destruct (Main.respond source result current_user context_id st) as [[r0|e] st0] eqn:R;
    [|discriminate].
  intros H. injection H as -> ->.
  exact (respond_shape _ _ _ _ _ _ _ R).
Qed.

Lemma fetch_jira_story_shape
    (http_get : string -> list (string * string) -> result JiraService.response)
    (jiraBaseUrl storyNumber current_user context_id : string)
    (st st' : Main.store) (r : json) :
  Main.fetch_jira_story loads llm exn_str admin_settings http_get jiraBaseUrl storyNumber
      current_user context_id st = (Ok r, st') ->
  Spec.is_clarification context_id r \/ Spec.is_test_cases r.
Proof.
  unfold Main.fetch_jira_story, Main.try_exceptM, Main.bindM, Main.lift.
  destruct (JiraService.fetch_story _ _ _ _) as [source|e]; [|discriminate].
  destruct (LLMService.generate_test_cases _ _ _ _ _) as [result|e]; [|discriminate].
  destruct (Main.respond source result current_user context_id st) as [[r0|e] st0] eqn:R;
    [|discriminate].
  intros H. injection H as -> ->.
  exact (respond_shape _ _ _ _ _ _ _ R).
Qed.

Lemma submit_answers_shape (answers : list (string * string)) (current_user : string)
    (st st' : Main.store) (r : json) :
  Main.submit_answers loads llm repr exn_str admin_settings answers current_user st
    = (Ok r, st') ->
  Spec.is_test_cases r.
Proof.
  rewrite submit_answers_eq.
  destruct (Main.find_context current_user st) as [context|]; [|discriminate].
  destruct (LLMService.generate_refined_test_cases _ _ _ _ _ _ _) as [result|e];
    simpl; [|discriminate].
  destruct (getitem result "testCases") as [tc|e]; simpl; [|discriminate].
  intros H. injection H as <- _. now exists tc.
Qed.

End SubmissionFacts.

(** C1, as amended.  An answer submission leaves the context store as it
    found it.  After a submission that completes successfully the consumed
    context is still in the store, and the scan for the same user still
    finds it. *)
Theorem submit_answers_keeps_context
    (loads : string -> result json) (llm : string -> result string)
    (repr : json -> string) (exn_str : exn -> string)
    (admin_settings : Main.settings)
    (answers : list (string * string)) (current_user : string)
    (st st' : Main.store) (r : json) :
  Main.submit_answers loads llm repr exn_str admin_settings answers current_user st
    = (Ok r, st') ->
  st' = st /\
  exists context,
    Main.find_context current_user st = Some context /\
    Main.find_context current_user st' = Some context.
Proof.
  intros H.
  pose proof (submit_answers_store loads llm repr exn_str admin_settings
                answers current_user st) as S.
  rewrite H in S. simpl in S. subst st'. split; [reflexivity|].
  rewrite submit_answers_eq in H.
  destruct (Main.find_context current_user st) as [context|]; [|discriminate].
  now exists context.
Qed.

Lemma submit_answers_keeps_context_witness :
  [("ctx-1", Examples.alice_context)] = [("ctx-1", Examples.alice_context)] /\
  exists context,
    Main.find_context "alice" [("ctx-1", Examples.alice_context)] = Some context /\
    Main.find_context "alice" [("ctx-1", Examples.alice_context)] = Some context.
Proof.
  exact (submit_answers_keeps_context Json.loads (Examples.model Examples.three_cases)
           Examples.no_repr Examples.exn_name Examples.settings_on
           [("0", "Clinician and Patient roles")] "alice"
           [("ctx-1", Examples.alice_context)] [("ctx-1", Examples.alice_context)]
           (JObj [("testCases",
                   JArr [Examples.tc "TC-001"; Examples.tc "TC-002";
                         Examples.tc "TC-003"])])
           eq_refl).
Defined.

(** C1, as stated, fails: user [alice] answers the questions of her stored
    context, the refinement succeeds and returns three test cases, and the
    store afterwards still holds the context and still hands it to her. *)
Lemma submit_answers_context_counterexample :
  Main.submit_answers Json.loads (Examples.model Examples.three_cases)
      Examples.no_repr Examples.exn_name Examples.settings_on
      [("0", "Clinician and Patient roles")] "alice"
      [("ctx-1", Examples.alice_context)]
    = (Ok (JObj [("testCases",
                  JArr [Examples.tc "TC-001"; Examples.tc "TC-002";
                        Examples.tc "TC-003"])]),
       [("ctx-1", Examples.alice_context)]) /\
  Main.find_context "alice"
      (snd (Main.submit_answers Json.loads (Examples.model Examples.three_cases)
              Examples.no_repr Examples.exn_name Examples.settings_on
              [("0", "Clinician and Patient roles")] "alice"
              [("ctx-1", Examples.alice_context)]))
    = Some Examples.alice_context.
Proof.
  split; reflexivity.
Qed.

(** C5 on the code.  When the scan finds no context of the requesting user,
    the [HTTPException] with status 404 is raised inside the [try] block,
    the handler [except Exception] catches it, and what reaches the caller
    is an [HTTPException] with status 500. *)
Theorem submit_answers_not_found_is_500
    (loads : string -> result json) (llm : string -> result string)
    (repr : json -> string) (exn_str : exn -> string)
    (admin_settings : Main.settings)
    (answers : list (string * string)) (current_user : string) (st : Main.store) :
  Main.find_context current_user st = None ->
  Main.submit_answers loads llm repr exn_str admin_settings answers current_user st
    = (Raise (HTTPException 500
                ("Failed to process answers: "
                 ++ exn_str (HTTPException 404 "Context not found"))), st).
Proof.
  intros H. rewrite submit_answers_eq, H. reflexivity.
Qed.

Lemma submit_answers_not_found_is_500_witness :
  Main.submit_answers Json.loads (Examples.model Examples.three_cases)
      Examples.no_repr Examples.exn_name Examples.settings_on
      [("0", "Clinician and Patient roles")] "alice" []
    = (Raise (HTTPException 500 "Failed to process answers: 404: Context not found"), []).
Proof.
  apply (submit_answers_not_found_is_500 Json.loads (Examples.model Examples.three_cases)
           Examples.no_repr Examples.exn_name Examples.settings_on
           [("0", "Clinician and Patient roles")] "alice" []).
  reflexivity.
Defined.

(** C6.  A response returned by an upload, a Jira request or an answer
    submission is of exactly one of two shapes: follow-up questions (not
    empty) with the handle of the stored context, or test cases.  A response
    with the key ['followUpQuestions'] has no key ['testCases'] and the
    other way round, whatever the model wrote. *)
Theorem response_has_one_variant
    (loads : string -> result json) (llm : string -> result string)
    (repr : json -> string) (exn_str : exn -> string)
    (admin_settings : Main.settings) :
  (forall filename extracted current_user context_id st st' r,
      Main.upload_file loads llm exn_str admin_settings filename extracted
        current_user context_id st = (Ok r, st') ->
      (Spec.is_clarification context_id r \/ Spec.is_test_cases r) /\
      Spec.carries "followUpQuestions" (Ok r) = negb (Spec.carries "testCases" (Ok r))) /\
  (forall http_get jiraBaseUrl storyNumber current_user context_id st st' r,
      Main.fetch_jira_story loads llm exn_str admin_settings http_get jiraBaseUrl
        storyNumber current_user context_id st = (Ok r, st') ->
      (Spec.is_clarification context_id r \/ Spec.is_test_cases r) /\
      Spec.carries "followUpQuestions" (Ok r) = negb (Spec.carries "testCases" (Ok r))) /\
  (forall answers current_user st st' r,
      Main.submit_answers loads llm repr exn_str admin_settings answers current_user st
        = (Ok r, st') ->
      Spec.is_test_cases r /\
      Spec.carries "followUpQuestions" (Ok r) = negb (Spec.carries "testCases" (Ok r))).
Proof.
  assert (K : forall context_id r,
             Spec.is_clarification context_id r \/ Spec.is_test_cases r ->
             Spec.carries "followUpQuestions" (Ok r)
               = negb (Spec.carries "testCases" (Ok r))).
  { intros context_id r [(fq & _ & ->) | (tc & ->)]; reflexivity. }
  split; [|split].
  - intros filename extracted current_user context_id st st' r H.
    pose proof (upload_file_shape _ _ _ _ _ _ _ _ _ _ _ H) as S.
    split; [exact S | exact (K _ _ S)].
  - intros http_get jiraBaseUrl storyNumber current_user context_id st st' r H.
    pose proof (fetch_jira_story_shape _ _ _ _ _ _ _ _ _ _ _ _ H) as S.
    split; [exact S | exact (K _ _ S)].
  - intros answers current_user st st' r H.
    pose proof (submit_answers_shape _ _ _ _ _ _ _ _ _ _ H) as S.
    split; [exact S | exact (K "" _ (or_intror S))].
Qed.

Lemma response_has_one_variant_witness :
  Spec.carries "followUpQuestions"
    (Ok (JObj [("followUpQuestions", JArr [JStr "Which roles?"]);
               ("contextId", JStr "ctx-1")]))
  = negb (Spec.carries "testCases"
            (Ok (JObj [("followUpQuestions", JArr [JStr "Which roles?"]);
                       ("contextId", JStr "ctx-1")]))).
Proof.
  apply (proj2 (proj1 (response_has_one_variant Json.loads
                         (Examples.model Examples.cases_and_question)
                         Examples.no_repr Examples.exn_name Examples.settings_off)
                  "story.pdf" (Ok Examples.story) "alice" "ctx-1" []
                  [("ctx-1", {| Main.original_text := Examples.story;
                                Main.questions := JArr [JStr "Which roles?"];
                                Main.user := "alice" |})]
                  _ eq_refl)).
Defined.

(* ----------------------------------------------------------------- *)
(** ** The Q/A block of the refinement prompt *)

Section QaBlockFacts.

Variable repr : json -> string.

Lemma answer_for_get (answers : list (string * string)) (idx : nat) :
  LLMService.answer_for answers idx =
    match dict_get answers (str_of_int (Z.of_nat idx)) with
    | Some a => a
    | None => ""
    end.
Proof.
  unfold LLMService.answer_for, LLMService.get_by_int.
  destruct (dict_get answers (str_of_int (Z.of_nat idx))) as [a|]; [|reflexivity].
  destruct (String.eqb a "") eqn:E; simpl; [|reflexivity].
  apply String.eqb_eq in E. now subst a.
Qed.

Lemma qa_pairs_from_length (idx : nat) (qs : list json) (answers : list (string * string)) :
  List.length (LLMService.qa_pairs_from repr idx qs answers) = List.length qs.
Proof.
  revert idx. induction qs as [|q qs IH]; intros idx; simpl; [reflexivity|].
  now rewrite IH.
Qed.

Lemma qa_pairs_from_nth (idx i : nat) (qs : list json) (answers : list (string * string))
    (q : json) :
  nth_error qs i = Some q ->
  nth_error (LLMService.qa_pairs_from repr idx qs answers) i
    = Some ("Q: " ++ LLMService.format repr q ++ " A: "
            ++ LLMService.answer_for answers (idx + i)).
Proof.
  revert idx i. induction qs as [|q0 qs IH]; intros idx [|i]; simpl; try discriminate.
  - intros H. injection H as ->. now rewrite Nat.add_0_r.
  - intros H. rewrite (IH (S idx) i H). now rewrite Nat.add_succ_r.
Qed.

End QaBlockFacts.

Section LineFacts.

Lemma lines_from_plain (p rest cur : string) :
  occurs (ascii_of_nat 10) p = false ->
  Spec.lines_from (p ++ rest) cur = Spec.lines_from rest (cur ++ p).
Proof.
  revert cur. induction p as [|c p IH]; intros cur H; simpl.
  - now rewrite append_nil_r.
  - simpl in H. apply orb_false_iff in H as [Hc Hp].
    rewrite Hc, (IH _ Hp), append_assoc. reflexivity.
Qed.

Lemma lines_from_nl (rest cur : string) :
  Spec.lines_from (nl ++ rest) cur = cur :: Spec.lines_from rest "".
Proof.
  reflexivity.
Qed.

(** Parts without a line feed, joined by line feeds, are the lines of the
    joined text. *)
Lemma lines_join (parts : list string) :
  parts <> [] ->
  Forall (fun p => occurs (ascii_of_nat 10) p = false) parts ->
  Spec.lines (join nl parts) = parts.
Proof.
  unfold Spec.lines. induction parts as [|p parts IH]; intros Hn Hf; [congruence|].
  inversion Hf as [|? ? Hp Hps]; subst.
  destruct parts as [|p' parts'].
  - simpl. rewrite <- (append_nil_r p) at 1.
    rewrite (lines_from_plain _ _ _ Hp). reflexivity.
  - change (join nl (p :: p' :: parts')) with (p ++ nl ++ join nl (p' :: parts')).
    rewrite (lines_from_plain _ _ _ Hp), lines_from_nl.
    change ("" ++ p) with p.
    rewrite IH; [reflexivity | discriminate | assumption].
Qed.

End LineFacts.

Lemma dict_get_plain (answers : list (string * string)) (k a : string) :
  Forall (fun kv => occurs (ascii_of_nat 10) (snd kv) = false) answers ->
  dict_get answers k = Some a ->
  occurs (ascii_of_nat 10) a = false.
Proof.
  induction answers as [|[k' a'] answers IH]; simpl; intros Hf Hg; [discriminate|].
  inversion Hf as [|? ? Ha Hrest]; subst.
  destruct (String.eqb k' k).
  - now injection Hg as <-.
  - now apply IH.
Qed.

Lemma qa_pairs_plain (repr : json -> string) (questions : list string)
    (answers : list (string * string)) (idx : nat) :
  Forall (fun q => occurs (ascii_of_nat 10) q = false) questions ->
  Forall (fun kv => occurs (ascii_of_nat 10) (snd kv) = false) answers ->
  Forall (fun p => occurs (ascii_of_nat 10) p = false)
    (LLMService.qa_pairs_from repr idx (map JStr questions) answers).
Proof.
  intros Hq Ha. revert idx.
  induction Hq as [|q questions Hq0 Hq IH]; intros idx; simpl; constructor.
  - change (ascii_of_nat 10) with "010"%char in *. simpl.
    rewrite occurs_append, Hq0. simpl. rewrite answer_for_get.
    destruct (dict_get answers _) as [a|] eqn:G.
    + exact (dict_get_plain _ _ _ Ha G).
    + reflexivity.
  - apply IH.
Qed.

(** C8, as amended.  For stored questions [q0 .. qn-1] and any answers, the
    Q/A block is the line-feed join of one entry per question, in the order
    of the questions.  Entry [i] is ['Q: <qi> A: <answer>'] with the answer
    stored under the key [str(i)], and ['Q: <qi> A: '] when that key is
    missing: the entry is not left out.  The refinement prompt carries the
    block between ['Clarifications:'] and ['Return only JSON.'], and the
    refinement run sends exactly this prompt to the model.  When there is a
    question and no question and no answer holds a line feed, the entries
    are the lines of the block, one line per question. *)
Theorem qa_block_one_line_per_question
    (repr : json -> string) (questions : list string)
    (answers : list (string * string)) (source : string) (max_cases : Z) :
  LLMService.qa_block repr (map JStr questions) answers
    = join nl (LLMService.qa_pairs_from repr 0 (map JStr questions) answers) /\
  List.length (LLMService.qa_pairs_from repr 0 (map JStr questions) answers)
    = List.length questions /\
  (forall i q, nth_error questions i = Some q ->
     nth_error (LLMService.qa_pairs_from repr 0 (map JStr questions) answers) i
       = Some ("Q: " ++ q ++ " A: "
               ++ match dict_get answers (str_of_int (Z.of_nat i)) with
                  | Some a => a
                  | None => ""
                  end)) /\
  (forall i q, nth_error questions i = Some q ->
     dict_get answers (str_of_int (Z.of_nat i)) = None ->
     nth_error (LLMService.qa_pairs_from repr 0 (map JStr questions) answers) i
       = Some ("Q: " ++ q ++ " A: ")) /\
  (exists before,
     LLMService._build_refinement_prompt source
       (LLMService.qa_block repr (map JStr questions) answers) max_cases
     = before ++ "Clarifications:" ++ nl
         ++ LLMService.qa_block repr (map JStr questions) answers
         ++ nl ++ nl ++ "Return only JSON.") /\
  (questions <> [] ->
   Forall (fun q => occurs (ascii_of_nat 10) q = false) questions ->
   Forall (fun kv => occurs (ascii_of_nat 10) (snd kv) = false) answers ->
   Spec.lines (LLMService.qa_block repr (map JStr questions) answers)
     = LLMService.qa_pairs_from repr 0 (map JStr questions) answers /\
   List.length (Spec.lines (LLMService.qa_block repr (map JStr questions) answers))
     = List.length questions) /\
  (forall (loads : string -> result json) (llm : string -> result string),
     LLMService.generate_refined_test_cases loads llm repr source
       (JArr (map JStr questions)) answers max_cases
     = (content <- llm (LLMService._build_refinement_prompt source
                          (join nl (LLMService.qa_pairs_from repr 0
                                      (map JStr questions) answers)) max_cases) ;;
        parsed <- LLMService._safe_parse_json loads content ;;
        Ok (LLMService.or_empty parsed))) /\
  (forall (loads : string -> result json) (llm : string -> result string) (e : exn),
     llm (LLMService._build_refinement_prompt source
            (join nl (LLMService.qa_pairs_from repr 0 (map JStr questions) answers))
            max_cases) = Raise e ->
     LLMService.generate_refined_test_cases loads llm repr source
       (JArr (map JStr questions)) answers max_cases = Raise e).
Proof.
  assert (N : forall i q, nth_error questions i = Some q ->
     nth_error (LLMService.qa_pairs_from repr 0 (map JStr questions) answers) i
       = Some ("Q: " ++ q ++ " A: "
               ++ match dict_get answers (str_of_int (Z.of_nat i)) with
                  | Some a => a
                  | None => ""
                  end)).
  { intros i q H.
    rewrite (qa_pairs_from_nth repr 0 i _ answers (JStr q)).
    - now rewrite answer_for_get.
    - now apply map_nth_error. }
  assert (Len : List.length (LLMService.qa_pairs_from repr 0 (map JStr questions) answers)
                = List.length questions)
    by now rewrite qa_pairs_from_length, length_map.
  split; [reflexivity|].
  split; [exact Len|]. split; [exact N|]. split; [|split; [|split; [|split]]].
  - intros i q H G. rewrite (N i q H), G. reflexivity.
  - unfold LLMService._build_refinement_prompt.
    eexists. repeat rewrite <- append_assoc. reflexivity.
  - intros Hn Hq Ha.
    assert (Li : Spec.lines (LLMService.qa_block repr (map JStr questions) answers)
                 = LLMService.qa_pairs_from repr 0 (map JStr questions) answers).
    { unfold LLMService.qa_block. apply lines_join.
      + destruct questions; [congruence | discriminate].
      + now apply qa_pairs_plain. }
    split; [exact Li | now rewrite Li].
  - intros loads llm. reflexivity.
  - intros loads llm e H. unfold LLMService.generate_refined_test_cases.
    cbn [iter bind]. unfold LLMService.qa_block. now rewrite H.
Qed.

Lemma qa_block_one_line_per_question_witness :
  nth_error
    (LLMService.qa_pairs_from Examples.no_repr 0
       (map JStr (LLMService._propose_followups Examples.story))
       [("0", "Clinician and Patient roles")]) 1
  = Some ("Q: " ++ "What environments or integrations are in scope (e.g., FHIR server, EHR vendor, external IDP)?" ++ " A: ") /\
  Spec.lines
    (LLMService.qa_block Examples.no_repr
       (map JStr (LLMService._propose_followups Examples.story))
       [("0", "Clinician and Patient roles")])
  = LLMService.qa_pairs_from Examples.no_repr 0
       (map JStr (LLMService._propose_followups Examples.story))
       [("0", "Clinician and Patient roles")].
Proof.
  pose proof (qa_block_one_line_per_question Examples.no_repr
                (LLMService._propose_followups Examples.story)
                [("0", "Clinician and Patient roles")] Examples.story 10)
    as (_ & _ & _ & Hmissing & _ & Hlines & _).
  split.
  - apply (Hmissing 1%nat); reflexivity.
  - apply Hlines.
    + discriminate.
    + repeat constructor.
    + repeat constructor.
Defined.

(** C8, as stated, fails: the answers are free text, and an answer that
    holds a line feed makes the block of one question two lines long, the
    second of which can read like an entry of its own. *)
Lemma qa_block_line_feed_counterexample :
  LLMService.qa_block Examples.no_repr [JStr "Which roles?"]
      [("0", "Clinician" ++ nl ++ "Q: Which systems? A: none")]
    = "Q: Which roles? A: Clinician" ++ nl ++ "Q: Which systems? A: none" /\
  Spec.lines
      (LLMService.qa_block Examples.no_repr [JStr "Which roles?"]
         [("0", "Clinician" ++ nl ++ "Q: Which systems? A: none")])
    = ["Q: Which roles? A: Clinician"; "Q: Which systems? A: none"] /\
  List.length
      (Spec.lines
         (LLMService.qa_block Examples.no_repr [JStr "Which roles?"]
            [("0", "Clinician" ++ nl ++ "Q: Which systems? A: none")]))
    <> List.length [JStr "Which roles?"].
Proof.
  split; [reflexivity|]. split; [reflexivity|]. vm_compute. discriminate.
Qed.

(* ----------------------------------------------------------------- *)
(** ** The acceptance text of a Jira story *)

Section JiraFacts.

Variable fields : list (string * json).

(** A key whose field is neither a [str] nor a [dict] is passed over. *)
Lemma acceptance_loop_skip (pre keys : list string) (acc : string) :
  (forall k, In k pre -> Spec.str_or_dict fields k = false) ->
  JiraService.acceptance_loop (pre ++ keys)%list (JObj fields) acc
    = JiraService.acceptance_loop keys (JObj fields) acc.
Proof.
  induction pre as [|k pre IH]; intros H; [reflexivity|].
  simpl. pose proof (H k (or_introl eq_refl)) as Hk.
  unfold Spec.str_or_dict in Hk.
  assert (IH' := IH (fun k' Hin => H k' (or_intror Hin))).
  destruct (dict_get fields k) as [[| | | | | |]|]; try discriminate; exact IH'.
Qed.

Lemma acceptance_loop_none (keys : list string) (acc : string) :
  (forall k, In k keys -> Spec.str_or_dict fields k = false) ->
  JiraService.acceptance_loop keys (JObj fields) acc = Ok acc.
Proof.
  intros H. rewrite <- (app_nil_r keys). now rewrite acceptance_loop_skip.
Qed.

End JiraFacts.

(** C9, as amended.  The acceptance text comes from the first field name, in
    the order ['customfield_10034'], ['Acceptance Criteria'],
    ['acceptanceCriteria'], whose field is a string or an object.  A string
    is taken as it is, the empty string too, and an object is flattened; in
    both cases the later names are not looked at.  Only a field that is
    absent, null or of another type is passed over.  The story text is
    ['Summary:' + summary + 'Description:' + description +
    'Acceptance Criteria:' + acceptance]. *)
Theorem acceptance_from_first_str_or_dict
    (fields : list (string * json)) (pre post : list string) (key : string) :
  JiraService.acceptance_keys = (pre ++ key :: post)%list ->
  (forall k, In k pre -> Spec.str_or_dict fields k = false) ->
  (forall s, dict_get fields key = Some (JStr s) ->
     JiraService.acceptance_loop JiraService.acceptance_keys (JObj fields) "" = Ok s) /\
  (forall d, dict_get fields key = Some (JObj d) ->
     JiraService.acceptance_loop JiraService.acceptance_keys (JObj fields) "" =
       (c <- get (JObj d) "content" (JArr []) ;;
        blocks <- iter c ;;
        JiraService.walk_blocks blocks "")) /\
  (forall s summary description,
     dict_get fields key = Some (JStr s) ->
     dict_get fields "summary" = Some (JStr summary) ->
     dict_get fields "description" = Some (JStr description) ->
     JiraService.story_of_issue (JObj [("fields", JObj fields)])
       = Ok ("Summary:" ++ summary ++ "Description:" ++ description
             ++ "Acceptance Criteria:" ++ s)).
Proof.
  intros E Hpre.
  assert (A : forall s, dict_get fields key = Some (JStr s) ->
     JiraService.acceptance_loop JiraService.acceptance_keys (JObj fields) "" = Ok s).
  { intros s G. rewrite E, (acceptance_loop_skip fields pre _ _ Hpre).
    simpl. now rewrite G. }
  split; [exact A|split].
  - intros d G. rewrite E, (acceptance_loop_skip fields pre _ _ Hpre).
    simpl. now rewrite G.
  - intros s summary description G Gs Gd.
    unfold JiraService.story_of_issue.
    cbn [get dict_get String.eqb Ascii.eqb Bool.eqb bind].
    rewrite Gs, Gd. cbn [is_dict bind]. rewrite (A s G). reflexivity.
Qed.

Lemma acceptance_from_first_str_or_dict_witness :
  JiraService.acceptance_loop JiraService.acceptance_keys
    (JObj [("summary", JStr "Withdraw consent");
           ("customfield_10034", JNull);
           ("Acceptance Criteria", JStr "Consent is revoked")]) ""
  = Ok "Consent is revoked".
Proof.
  refine (proj1 (acceptance_from_first_str_or_dict
                   [("summary", JStr "Withdraw consent");
                    ("customfield_10034", JNull);
                    ("Acceptance Criteria", JStr "Consent is revoked")]
                   ["customfield_10034"] ["acceptanceCriteria"] "Acceptance Criteria"
                   eq_refl _) _ _).
  - intros k [<-|[]]. reflexivity.
  - reflexivity.
Defined.

(** C9, as stated, fails: the first field, ['customfield_10034'], is present
    and empty, the second, ['Acceptance Criteria'], holds the criteria, and
    the story text ends with an empty acceptance text. *)
Lemma acceptance_empty_field_counterexample :
  Json.loads Examples.issue_text
    = Ok (JObj [("key", JStr "HC-1");
                ("fields",
                 JObj [("summary", JStr "Withdraw consent");
                       ("description", JStr "Patient withdraws consent.");
                       ("customfield_10034", JStr "");
                       ("Acceptance Criteria", JStr "Consent is revoked")])]) /\
  JiraService.fetch_story Examples.jira "https://jira.example.org/" "HC-1" "dG9rZW4="
    = Ok "Summary:Withdraw consentDescription:Patient withdraws consent.Acceptance Criteria:" /\
  JiraService.fetch_story Examples.jira "https://jira.example.org/" "HC-1" "dG9rZW4="
    <> Ok "Summary:Withdraw consentDescription:Patient withdraws consent.Acceptance Criteria:Consent is revoked".
Proof.
  split; [reflexivity|]. split; [reflexivity|]. vm_compute. discriminate.
Qed.

(* ----------------------------------------------------------------- *)
(** ** The scenario of the design document, end to end *)

(** A story is uploaded with [maxTestCases = 10] and clarifications enabled,
    and the model returns one test case: the caller gets the three fixed
    questions and a handle, and the context is stored.  The caller then
    answers question 0 and the model returns four test cases: the caller
    gets exactly those four, and the store still holds the context. *)
Lemma consent_withdrawal_scenario :
  Main.upload_file Json.loads (Examples.model Examples.one_case) Examples.exn_name
      Examples.settings_on "story.pdf" (Ok Examples.story) "alice" "ctx-1" []
    = (Ok (JObj [("followUpQuestions",
                  JArr (map JStr (LLMService._propose_followups Examples.story)));
                 ("contextId", JStr "ctx-1")]),
       [("ctx-1", Examples.alice_context)]) /\
  Main.submit_answers Json.loads (Examples.model Examples.four_cases)
      Examples.no_repr Examples.exn_name Examples.settings_on
      [("0", "Clinician and Patient roles")] "alice"
      [("ctx-1", Examples.alice_context)]
    = (Ok (JObj [("testCases",
                  JArr [Examples.tc "TC-001"; Examples.tc "TC-002";
                        Examples.tc "TC-003"; Examples.tc "TC-004"])]),
       [("ctx-1", Examples.alice_context)]).
Proof.
  split; reflexivity.
Qed.

(* ================================================================= *)
(** * Further properties of the code *)

(** ** Failures of the handlers and what they leave in the store *)

Section FailureFacts.

Variable loads : string -> result json.
Variable llm : string -> result string.
Variable repr : json -> string.
Variable exn_str : exn -> string.
Variable admin_settings : Main.settings.

(** [respond] writes to the store on its clarification branch only, and
    that branch does not raise. *)
Lemma respond_outcome (source : string) (result : json)
    (current_user context_id : string) (st : Main.store) :
  (exists fq, truthy fq = true /\
     Main.respond source result current_user context_id st =
       (Ok (JObj [("followUpQuestions", fq); ("contextId", JStr context_id)]),
        dict_set st context_id
          {| Main.original_text := source; Main.questions := fq;
             Main.user := current_user |})) \/
  (exists tc, Main.respond source result current_user context_id st
                = (Ok (JObj [("testCases", tc)]), st)) \/
  (exists e, Main.respond source result current_user context_id st = (Raise e, st)).
Proof.
  destruct (get result "followUpQuestions" JNull) as [fq|e] eqn:Hg.
  - destruct (truthy fq) eqn:Ht.
    + left. exists fq. split; [assumption|]. now apply respond_questions.
    + right. rewrite (respond_cases _ _ _ _ _ _ Hg Ht).
      destruct (getitem result "testCases") as [tc|e]; simpl; [|right; now exists e].
      destruct (len tc) as [n|e]; simpl; [left; now exists tc | right; now exists e].
  - right. right. exists e.
    unfold Main.respond, Main.bindM, Main.lift. now rewrite Hg.
Qed.

End FailureFacts.

(** X1.  Whatever goes wrong in an upload, a Jira request or an answer
    submission, the caller sees an [HTTPException] with status 500 and the
    context store is left as it was. *)
Theorem handler_failure_is_500
    (loads : string -> result json) (llm : string -> result string)
    (repr : json -> string) (exn_str : exn -> string)
    (admin_settings : Main.settings) :
  (forall filename extracted current_user context_id st e,
      fst (Main.upload_file loads llm exn_str admin_settings filename extracted
             current_user context_id st) = Raise e ->
      (exists detail, e = HTTPException 500 detail) /\
      snd (Main.upload_file loads llm exn_str admin_settings filename extracted
             current_user context_id st) = st) /\
  (forall http_get jiraBaseUrl storyNumber current_user context_id st e,
      fst (Main.fetch_jira_story loads llm exn_str admin_settings http_get jiraBaseUrl
             storyNumber current_user context_id st) = Raise e ->
      (exists detail, e = HTTPException 500 detail) /\
      snd (Main.fetch_jira_story loads llm exn_str admin_settings http_get jiraBaseUrl
             storyNumber current_user context_id st) = st) /\
  (forall answers current_user st e,
      fst (Main.submit_answers loads llm repr exn_str admin_settings answers
             current_user st) = Raise e ->
      exists detail, e = HTTPException 500 detail).
Proof.
  split; [|split].
  - intros filename extracted current_user context_id st e.
    unfold Main.upload_file, Main.try_exceptM, Main.bindM, Main.lift, Main.ret, Main.raise.
    destruct (negb (Main.endswith filename ".pdf")).
    { simpl. intros H. injection H as <-. eauto. }
    destruct extracted as [source|e0].
    2:{ simpl. intros H. injection H as <-. eauto. }
    destruct (LLMService.generate_test_cases _ _ _ _ _) as [result|e0].
    2:{ simpl. intros H. injection H as <-. eauto. }
    destruct (respond_outcome source result current_user context_id st)
      as [(fq & _ & ->) | [(tc & ->) | (e0 & ->)]]; simpl.
    + discriminate.
    + discriminate.
    + intros H. injection H as <-. eauto.
  - intros http_get jiraBaseUrl storyNumber current_user context_id st e.
    unfold Main.fetch_jira_story, Main.try_exceptM, Main.bindM, Main.lift, Main.raise.
    destruct (JiraService.fetch_story _ _ _ _) as [source|e0].
    2:{ simpl. intros H. injection H as <-. eauto. }
    destruct (LLMService.generate_test_cases _ _ _ _ _) as [result|e0].
    2:{ simpl. intros H. injection H as <-. eauto. }
    destruct (respond_outcome source result current_user context_id st)
      as [(fq & _ & ->) | [(tc & ->) | (e0 & ->)]]; simpl.
    + discriminate.
    + discriminate.
    + intros H. injection H as <-. eauto.
  - intros answers current_user st e. rewrite submit_answers_eq.
    destruct (Main.find_context current_user st) as [context|]; simpl.
    + destruct (LLMService.generate_refined_test_cases _ _ _ _ _ _ _) as [result|e0]; simpl.
      * destruct (getitem result "testCases"); simpl; [discriminate|].
        intros H. injection H as <-. eauto.
      * intros H. injection H as <-. eauto.
    + intros H. injection H as <-. eauto.
Qed.

Lemma handler_failure_is_500_witness :
  exists detail,
    HTTPException 500 "Failed to process file: 400: Only PDF files are supported"
      = HTTPException 500 detail.
Proof.
  exact (proj1 (proj1 (handler_failure_is_500 Json.loads
                         (Examples.model Examples.three_cases) Examples.no_repr
                         Examples.exn_name Examples.settings_on)
                  "story.docx" (Ok Examples.story) "alice" "ctx-1" []
                  (HTTPException 500
                     "Failed to process file: 400: Only PDF files are supported")
                  eq_refl)).
Defined.

(** X2.  An upload whose file name does not end in [.pdf] is refused before
    the text extraction and the model are looked at; the status 400 raised
    for it is caught by the handler of the same function, so the caller is
    answered with status 500, and nothing is stored. *)
Theorem upload_non_pdf_is_500
    (loads : string -> result json) (llm : string -> result string)
    (exn_str : exn -> string) (admin_settings : Main.settings)
    (filename : string) (extracted : result string)
    (current_user context_id : string) (st : Main.store) :
  Main.endswith filename ".pdf" = false ->
  Main.upload_file loads llm exn_str admin_settings filename extracted
      current_user context_id st
    = (Raise (HTTPException 500
                ("Failed to process file: "
                 ++ exn_str (HTTPException 400 "Only PDF files are supported"))), st).
Proof.
  intros H.
  unfold Main.upload_file, Main.try_exceptM, Main.bindM, Main.lift, Main.ret, Main.raise.
  rewrite H. reflexivity.
Qed.

Lemma upload_non_pdf_is_500_witness :
  Main.upload_file Json.loads (Examples.model Examples.three_cases) Examples.exn_name
      Examples.settings_on "story.PDF" (Ok Examples.story) "alice" "ctx-1" []
    = (Raise (HTTPException 500
                "Failed to process file: 400: Only PDF files are supported"), []).
Proof.
  apply (upload_non_pdf_is_500 Json.loads (Examples.model Examples.three_cases)
           Examples.exn_name Examples.settings_on "story.PDF" (Ok Examples.story)
           "alice" "ctx-1" []).
  reflexivity.
Defined.

(* ----------------------------------------------------------------- *)
(** ** The context store *)

Section StoreFacts.

Context {V : Type}.

Lemma dict_get_set_same (d : list (string * V)) (k : string) (v : V) :
  dict_get (dict_set d k v) k = Some v.
Proof.
  induction d as [|[k' v'] d IH]; simpl.
  - now rewrite String.eqb_refl.
  - destruct (String.eqb k' k) eqn:E; simpl; now rewrite E.
Qed.

Lemma dict_get_set_other (d : list (string * V)) (k k' : string) (v : V) :
  k' <> k -> dict_get (dict_set d k v) k' = dict_get d k'.
Proof.
  intros N. induction d as [|[k0 v0] d IH]; simpl.
  - destruct (String.eqb_spec k k'); [congruence | reflexivity].
  - destruct (String.eqb_spec k0 k) as [->|Nk]; simpl.
    + destruct (String.eqb_spec k k'); [congruence | reflexivity].
    + destruct (String.eqb k0 k'); [reflexivity | exact IH].
Qed.

Lemma dict_set_fresh (d : list (string * V)) (k : string) (v : V) :
  dict_get d k = None -> dict_set d k v = (d ++ [(k, v)])%list.
Proof.
  induction d as [|[k0 v0] d IH]; simpl; [reflexivity|].
  destruct (String.eqb k0 k); [discriminate|].
  intros H. now rewrite IH.
Qed.

End StoreFacts.

Lemma find_context_app (current_user : string) (st1 st2 : Main.store) :
  Main.find_context current_user (st1 ++ st2)%list =
    match Main.find_context current_user st1 with
    | Some c => Some c
    | None => Main.find_context current_user st2
    end.
Proof.
  induction st1 as [|[id c] st1 IH]; simpl; [reflexivity|].
  destruct (String.eqb (Main.user c) current_user); [reflexivity | exact IH].
Qed.

(** X3.  An upload changes the context store exactly when it answers with
    follow-up questions: then the store holds, under the handle given to the
    caller, a context with the extracted text, the questions sent and the
    requesting user; a response with test cases leaves the store as it
    was. *)
Theorem upload_stores_on_clarification
    (loads : string -> result json) (llm : string -> result string)
    (exn_str : exn -> string) (admin_settings : Main.settings)
    (filename : string) (extracted : result string)
    (current_user context_id : string) (st st' : Main.store) (r : json) :
  Main.upload_file loads llm exn_str admin_settings filename extracted
      current_user context_id st = (Ok r, st') ->
  (Spec.is_test_cases r /\ st' = st) \/
  (exists source fq,
      extracted = Ok source /\ truthy fq = true /\
      r = JObj [("followUpQuestions", fq); ("contextId", JStr context_id)] /\
      st' = dict_set st context_id
              {| Main.original_text := source; Main.questions := fq;
                 Main.user := current_user |} /\
      dict_get st' context_id
        = Some {| Main.original_text := source; Main.questions := fq;
                  Main.user := current_user |} /\
      forall other, other <> context_id -> dict_get st' other = dict_get st other).
Proof.
  unfold Main.upload_file, Main.try_exceptM, Main.bindM, Main.lift, Main.ret, Main.raise.
  destruct (negb (Main.endswith filename ".pdf")); [discriminate|].
  destruct extracted as [source|e]; [|discriminate].
  destruct (LLMService.generate_test_cases _ _ _ _ _) as [result|e]; [|discriminate].
  destruct (respond_outcome source result current_user context_id st)
    as [(fq & Ht & ->) | [(tc & ->) | (e0 & ->)]]; simpl; intros H.
  - injection H as <- <-. right. exists source, fq.
    repeat split; try assumption; try reflexivity.
    + apply dict_get_set_same.
    + intros other N. now apply dict_get_set_other.
  - injection H as <- <-. left. split; [now exists tc | reflexivity].
  - discriminate.
Qed.

Lemma upload_stores_on_clarification_witness :
  (Spec.is_test_cases
     (JObj [("followUpQuestions",
             JArr (map JStr (LLMService._propose_followups Examples.story)));
            ("contextId", JStr "ctx-1")]) /\
   [("ctx-1", Examples.alice_context)] = []) \/
  (exists source fq,
      Ok Examples.story = Ok source /\ truthy fq = true /\
      JObj [("followUpQuestions",
             JArr (map JStr (LLMService._propose_followups Examples.story)));
            ("contextId", JStr "ctx-1")]
        = JObj [("followUpQuestions", fq); ("contextId", JStr "ctx-1")] /\
      [("ctx-1", Examples.alice_context)]
        = dict_set [] "ctx-1"
            {| Main.original_text := source; Main.questions := fq;
               Main.user := "alice" |} /\
      dict_get [("ctx-1", Examples.alice_context)] "ctx-1"
        = Some {| Main.original_text := source; Main.questions := fq;
                  Main.user := "alice" |} /\
      forall other, other <> "ctx-1" ->
        dict_get [("ctx-1", Examples.alice_context)] other = dict_get [] other).
Proof.
  exact (upload_stores_on_clarification Json.loads (Examples.model Examples.one_case)
           Examples.exn_name Examples.settings_on "story.pdf" (Ok Examples.story)
           "alice" "ctx-1" [] [("ctx-1", Examples.alice_context)] _ eq_refl).
Defined.

(** X4.  The scan of [submit_answers] hands out a stored context whose user
    is the requesting user, and among those the one stored first: the
    contexts of other users are passed over, and it finds nothing exactly
    when no stored context belongs to the user. *)
Theorem find_context_first_of_user (current_user : string) (st : Main.store) :
  (forall c, Main.find_context current_user st = Some c ->
     Main.user c = current_user /\
     exists st1 id st2,
       st = (st1 ++ (id, c) :: st2)%list /\
       Forall (fun entry => Main.user (snd entry) <> current_user) st1) /\
  (Main.find_context current_user st = None <->
     Forall (fun entry => Main.user (snd entry) <> current_user) st).
Proof.
  induction st as [|[id c0] st [IH1 IH2]]; simpl.
  - split; [discriminate | split; [constructor | reflexivity]].
  - destruct (String.eqb_spec (Main.user c0) current_user) as [E|N].
    + split.
      * intros c H. injection H as <-. split; [assumption|].
        exists [], id, st. split; [reflexivity | constructor].
      * split; [discriminate|]. intros F. inversion F; subst. simpl in *. congruence.
    + split.
      * intros c H. destruct (IH1 c H) as (U & st1 & id' & st2 & -> & F).
        split; [assumption|].
        exists ((id, c0) :: st1), id', st2. split; [reflexivity|].
        now constructor.
      * rewrite IH2. split; intros F.
        -- now constructor.
        -- now inversion F.
Qed.

Lemma find_context_first_of_user_witness :
  Main.user Examples.alice_context = "alice" /\
  exists st1 id st2,
    [("ctx-0", {| Main.original_text := "Lab order"; Main.questions := JArr [];
                  Main.user := "bob" |});
     ("ctx-1", Examples.alice_context)]
      = (st1 ++ (id, Examples.alice_context) :: st2)%list /\
    Forall (fun entry => Main.user (snd entry) <> "alice") st1.
Proof.
  exact (proj1 (find_context_first_of_user "alice"
                  [("ctx-0", {| Main.original_text := "Lab order";
                                Main.questions := JArr []; Main.user := "bob" |});
                   ("ctx-1", Examples.alice_context)])
           Examples.alice_context eq_refl).
Defined.

(** X5.  A user who already has a stored context and starts another
    clarification round, stored under a handle not yet in use, keeps being
    served the older context: the scan after the insertion finds what it
    found before it. *)
Theorem older_context_shadows_newer
    (current_user context_id : string) (st : Main.store) (older newer : Main.context) :
  Main.find_context current_user st = Some older ->
  dict_get st context_id = None ->
  Main.find_context current_user (dict_set st context_id newer) = Some older.
Proof.
  intros F G. rewrite (dict_set_fresh _ _ _ G), find_context_app, F. reflexivity.
Qed.

Lemma older_context_shadows_newer_witness :
  Main.find_context "alice"
    (dict_set [("ctx-1", Examples.alice_context)] "ctx-2"
       {| Main.original_text := "Lab order"; Main.questions := JArr [JStr "Which lab?"];
          Main.user := "alice" |})
  = Some Examples.alice_context.
Proof.
  apply older_context_shadows_newer; reflexivity.
Defined.

(* ----------------------------------------------------------------- *)
(** ** Answer submission: what the stored context and the model decide *)

(** X6.  When the questions of the context the scan finds cannot be
    iterated (a number, [true]), every answer submission of that user fails
    with status 500 before the model is asked, whatever is answered; the
    store is not changed, so the next submission meets the same context. *)
Theorem submit_answers_unusable_context
    (loads : string -> result json) (llm : string -> result string)
    (repr : json -> string) (exn_str : exn -> string)
    (admin_settings : Main.settings)
    (answers : list (string * string)) (current_user : string)
    (st : Main.store) (context : Main.context) (e : exn) :
  Main.find_context current_user st = Some context ->
  iter (Main.questions context) = Raise e ->
  Main.submit_answers loads llm repr exn_str admin_settings answers current_user st
    = (Raise (HTTPException 500 ("Failed to process answers: " ++ exn_str e)), st).
Proof.
  intros F I. rewrite submit_answers_eq, F.
  unfold LLMService.generate_refined_test_cases. rewrite I. reflexivity.
Qed.

Lemma submit_answers_unusable_context_witness :
  Main.upload_file Json.loads (Examples.model (dquoted "{'followUpQuestions': 5}"))
      Examples.exn_name Examples.settings_off "story.pdf" (Ok Examples.story)
      "alice" "ctx-1" []
    = (Ok (JObj [("followUpQuestions", JInt 5); ("contextId", JStr "ctx-1")]),
       [("ctx-1", {| Main.original_text := Examples.story; Main.questions := JInt 5;
                     Main.user := "alice" |})]) /\
  Main.submit_answers Json.loads (Examples.model Examples.three_cases)
      Examples.no_repr Examples.exn_name Examples.settings_off
      [("0", "Clinician")] "alice"
      [("ctx-1", {| Main.original_text := Examples.story; Main.questions := JInt 5;
                    Main.user := "alice" |})]
    = (Raise (HTTPException 500 "Failed to process answers: TypeError"),
       [("ctx-1", {| Main.original_text := Examples.story; Main.questions := JInt 5;
                     Main.user := "alice" |})]).
Proof.
  split; [reflexivity|].
  apply (submit_answers_unusable_context Json.loads (Examples.model Examples.three_cases)
           Examples.no_repr Examples.exn_name Examples.settings_off
           [("0", "Clinician")] "alice" _
           {| Main.original_text := Examples.story; Main.questions := JInt 5;
              Main.user := "alice" |} TypeError); reflexivity.
Defined.

(** X7.  An answer submission whose refined response gives nothing usable
    (it cannot be parsed, or parses to [null], an empty object or another
    empty value) is answered with an empty list of test cases, not with an
    error. *)
Theorem submit_answers_fail_soft
    (loads : string -> result json) (llm : string -> result string)
    (repr : json -> string) (exn_str : exn -> string)
    (admin_settings : Main.settings)
    (answers : list (string * string)) (current_user : string)
    (st : Main.store) (context : Main.context) (qs : list json)
    (content : string) (parsed : json) :
  Main.find_context current_user st = Some context ->
  iter (Main.questions context) = Ok qs ->
  llm (LLMService._build_refinement_prompt (Main.original_text context)
         (LLMService.qa_block repr qs answers) (Main.maxTestCases admin_settings))
    = Ok content ->
  LLMService._safe_parse_json loads content = Ok parsed ->
  truthy parsed = false ->
  Main.submit_answers loads llm repr exn_str admin_settings answers current_user st
    = (Ok (JObj [("testCases", JArr [])]), st).
Proof.
  intros F I Hc Hp Ht. rewrite submit_answers_eq, F.
  rewrite (generate_refined_test_cases_eq loads llm repr _ _ qs _ _ content parsed I Hc Hp).
  rewrite (or_empty_falsy _ Ht). reflexivity.
Qed.

Lemma submit_answers_fail_soft_witness :
  Main.submit_answers Json.loads (Examples.model "I am sorry, I cannot do that.")
      Examples.no_repr Examples.exn_name Examples.settings_on
      [("0", "Clinician and Patient roles")] "alice"
      [("ctx-1", Examples.alice_context)]
    = (Ok (JObj [("testCases", JArr [])]), [("ctx-1", Examples.alice_context)]).
Proof.
  apply (submit_answers_fail_soft Json.loads
           (Examples.model "I am sorry, I cannot do that.")
           Examples.no_repr Examples.exn_name Examples.settings_on
           [("0", "Clinician and Patient roles")] "alice"
           [("ctx-1", Examples.alice_context)] Examples.alice_context
           (map JStr (LLMService._propose_followups Examples.story))
           "I am sorry, I cannot do that." JNull); reflexivity.
Defined.

(** X8.  A failure of the model call is not absorbed: the generation run
    and the refinement run raise what the call raised, no result is made
    up, and the upload is answered with status 500 without storing a
    context. *)
Theorem model_failure_propagates
    (loads : string -> result json) (llm : string -> result string)
    (repr : json -> string) (exn_str : exn -> string)
    (admin_settings : Main.settings)
    (filename source current_user context_id : string) (st : Main.store)
    (questions : json) (qs : list json) (answers : list (string * string))
    (enable : bool) (e : exn) :
  (llm (LLMService._build_generation_prompt source (Main.maxTestCases admin_settings))
     = Raise e ->
   LLMService.generate_test_cases loads llm source (Main.maxTestCases admin_settings)
     enable = Raise e /\
   (Main.endswith filename ".pdf" = true ->
    Main.upload_file loads llm exn_str admin_settings filename (Ok source)
        current_user context_id st
      = (Raise (HTTPException 500 ("Failed to process file: " ++ exn_str e)), st))) /\
  (iter questions = Ok qs ->
   llm (LLMService._build_refinement_prompt source
          (LLMService.qa_block repr qs answers) (Main.maxTestCases admin_settings))
     = Raise e ->
   LLMService.generate_refined_test_cases loads llm repr source questions answers
     (Main.maxTestCases admin_settings) = Raise e).
Proof.
  split.
  - intros H.
    assert (G : forall b, LLMService.generate_test_cases loads llm source
                  (Main.maxTestCases admin_settings) b = Raise e).
    { intros b. unfold LLMService.generate_test_cases. now rewrite H. }
    split; [apply G|].
    intros Hf. rewrite (upload_file_eq loads llm exn_str admin_settings _ _ _ _ _ Hf).
    now rewrite G.
  - intros I H. unfold LLMService.generate_refined_test_cases.
    rewrite I. simpl. now rewrite H.
Qed.

Lemma model_failure_propagates_witness :
  Main.upload_file Json.loads (fun _ => Raise (ExternalError "quota exceeded"))
      Examples.exn_name Examples.settings_on "story.pdf" (Ok Examples.story)
      "alice" "ctx-1" []
    = (Raise (HTTPException 500 "Failed to process file: quota exceeded"), []).
Proof.
  apply (proj1 (model_failure_propagates Json.loads
                  (fun _ => Raise (ExternalError "quota exceeded"))
                  Examples.no_repr Examples.exn_name Examples.settings_on
                  "story.pdf" Examples.story "alice" "ctx-1" []
                  (JArr []) [] [] true (ExternalError "quota exceeded"))
           eq_refl); reflexivity.
Defined.

(** X9.  What a generation or refinement run returns is never [None] and
    never an empty value: an unusable response has been replaced by
    [{'testCases': []}] before the return. *)
Theorem service_result_not_empty
    (loads : string -> result json) (llm : string -> result string)
    (repr : json -> string) (source : string) (max_cases : Z) (enable : bool)
    (questions : json) (answers : list (string * string)) :
  (forall r, LLMService.generate_test_cases loads llm source max_cases enable = Ok r ->
     truthy r = true) /\
  (forall r, LLMService.generate_refined_test_cases loads llm repr source questions
               answers max_cases = Ok r ->
     truthy r = true).
Proof.
  assert (T : forall p, truthy (LLMService.or_empty p) = true).
  { intros p. unfold LLMService.or_empty.
    destruct (truthy p) eqn:E; simpl; [exact E | reflexivity]. }
  split; intros r.
  - unfold LLMService.generate_test_cases.
    destruct (llm _) as [content|e]; simpl; [|discriminate].
    destruct (LLMService._safe_parse_json loads content) as [parsed|e]; simpl;
      [|discriminate].
    destruct (LLMService.wants_followups _ _) as [[|]|e]; simpl; try discriminate.
    + intros H. injection H as <-. reflexivity.
    + intros H. injection H as <-. apply T.
  - unfold LLMService.generate_refined_test_cases.
    destruct (iter questions) as [qs|e]; simpl; [|discriminate].
    destruct (llm _) as [content|e]; simpl; [|discriminate].
    destruct (LLMService._safe_parse_json loads content) as [parsed|e]; simpl;
      [|discriminate].
    intros H. injection H as <-. apply T.
Qed.

Lemma service_result_not_empty_witness :
  truthy (JObj [("testCases", JArr [])]) = true.
Proof.
  apply (proj1 (service_result_not_empty Json.loads (Examples.model "null")
                  Examples.no_repr Examples.story 10 false (JArr []) [])).
  reflexivity.
Defined.

(* ----------------------------------------------------------------- *)
(** ** What reaches the prompts *)







Lemma qa_pairs_from_agree (repr : json -> string) (qs : list json)
    (a1 a2 : list (string * string)) (idx : nat) :
  (forall i, (idx <= i < idx + List.length qs)%nat ->
     LLMService.answer_for a1 i = LLMService.answer_for a2 i) ->
  LLMService.qa_pairs_from repr idx qs a1 = LLMService.qa_pairs_from repr idx qs a2.
Proof.
  revert idx. induction qs as [|q qs IH]; intros idx H; simpl; [reflexivity|].
  rewrite (H idx) by (simpl; lia). f_equal.
  apply IH. intros i Hi. apply H. simpl. lia.
Qed.

(** X11.  The Q/A block reads the answers under the keys ['0'] to
    [str(n-1)] for [n] questions and nothing else: two answer sets that give
    the same text under each of these keys, an empty answer counting as a
    missing one, produce the same block, the same refinement prompt and the
    same result.  Answers under other keys are ignored. *)
Theorem qa_block_reads_indexed_answers
    (loads : string -> result json) (llm : string -> result string)
    (repr : json -> string) (source : string) (questions : list json)
    (a1 a2 : list (string * string)) (max_cases : Z) :
  (forall i, (i < List.length questions)%nat ->
     match dict_get a1 (str_of_int (Z.of_nat i)) with Some a => a | None => "" end
     = match dict_get a2 (str_of_int (Z.of_nat i)) with Some a => a | None => "" end) ->
  LLMService.qa_block repr questions a1 = LLMService.qa_block repr questions a2 /\
  LLMService.generate_refined_test_cases loads llm repr source (JArr questions) a1 max_cases
    = LLMService.generate_refined_test_cases loads llm repr source (JArr questions) a2
        max_cases.
Proof.
  intros H.
  assert (B : LLMService.qa_block repr questions a1 = LLMService.qa_block repr questions a2).
  { unfold LLMService.qa_block. f_equal. apply qa_pairs_from_agree.
    intros i Hi. rewrite !answer_for_get. apply H. lia. }
  split; [exact B|].
  unfold LLMService.generate_refined_test_cases. simpl. now rewrite B.
Qed.

Lemma qa_block_reads_indexed_answers_witness :
  LLMService.qa_block Examples.no_repr [JStr "Which roles?"; JStr "Which systems?"]
    [("0", "Clinician"); ("1", ""); ("7", "ignored"); ("notes", "ignored too")]
  = LLMService.qa_block Examples.no_repr [JStr "Which roles?"; JStr "Which systems?"]
      [("0", "Clinician")].
Proof.
  refine (proj1 (qa_block_reads_indexed_answers Json.loads (Examples.model "null")
                   Examples.no_repr Examples.story
                   [JStr "Which roles?"; JStr "Which systems?"]
                   [("0", "Clinician"); ("1", ""); ("7", "ignored");
                    ("notes", "ignored too")]
                   [("0", "Clinician")] 10 _)).
  intros [|[|i]] H; [reflexivity | reflexivity | simpl in H; lia].
Defined.

(* ----------------------------------------------------------------- *)
(** ** The Jira adapter *)

(** X12.  [fetch_story] refuses to work without a token before any request
    is sent, whatever the server would answer.  With a token it sends one
    request, to the issue URL and with the token in a [Basic] authorization
    header; an answer whose status is not 200 raises an exception that
    names the status and the body, and the body is not decoded. *)
Theorem fetch_story_refusals
    (http_get : string -> list (string * string) -> result JiraService.response)
    (base_url story_key token : string) (resp : JiraService.response) :
  JiraService.fetch_story http_get base_url story_key ""
    = Raise (Exception "Jira token not configured in Admin Settings") /\
  (token <> "" ->
   http_get (JiraService.rstrip_slash base_url ++ "/rest/api/3/issue/" ++ story_key)
     [("Authorization", "Basic " ++ token); ("Accept", "application/json")] = Ok resp ->
   JiraService.status_code resp <> 200%Z ->
   JiraService.fetch_story http_get base_url story_key token
     = Raise (Exception ("Jira API error " ++ str_of_int (JiraService.status_code resp)
                           ++ " " ++ JiraService.text resp))).
Proof.
  split; [reflexivity|].
  intros Ht Hg Hs. unfold JiraService.fetch_story.
  destruct (String.eqb_spec token ""); [congruence|].
  rewrite Hg. simpl.
  destruct (Z.eqb_spec (JiraService.status_code resp) 200); [congruence | reflexivity].
Qed.

Lemma fetch_story_refusals_witness :
  JiraService.fetch_story
    (fun _ _ => Ok {| JiraService.status_code := 404;
                      JiraService.text := "Issue does not exist";
                      JiraService.json_body := Raise JSONDecodeError |})
    "https://jira.example.org" "HC-9" "dG9rZW4="
  = Raise (Exception "Jira API error 404 Issue does not exist").
Proof.
  apply (proj2 (fetch_story_refusals
                  (fun _ _ => Ok {| JiraService.status_code := 404;
                                    JiraService.text := "Issue does not exist";
                                    JiraService.json_body := Raise JSONDecodeError |})
                  "https://jira.example.org" "HC-9" "dG9rZW4="
                  {| JiraService.status_code := 404;
                     JiraService.text := "Issue does not exist";
                     JiraService.json_body := Raise JSONDecodeError |}));
    [discriminate | reflexivity | discriminate].
Defined.

Lemma rstrip_slash_slash (s : string) :
  JiraService.rstrip_slash (s ++ "/") = JiraService.rstrip_slash s.
Proof.
  induction s as [|c s IH]; [reflexivity|].
  change (String c s ++ "/") with (String c (s ++ "/")).
  simpl JiraService.rstrip_slash. now rewrite IH.
Qed.

Lemma rstrip_slash_no_slash (s : string) (c : ascii) :
  c <> "/"%char ->
  JiraService.rstrip_slash (s ++ String c "") = s ++ String c "".
Proof.
  intros N. induction s as [|x s IH].
  - simpl. destruct (Ascii.eqb_spec c "/"); [congruence | reflexivity].
  - change (String x s ++ String c "") with (String x (s ++ String c "")).
    simpl JiraService.rstrip_slash. rewrite IH.
    destruct s; reflexivity.
Qed.

(** X13.  Slashes at the end of the Jira base URL do not matter: the story
    fetched with [base + '/'] is the story fetched with [base], and a base
    that ends in another character is used as it is. *)
Theorem fetch_story_trailing_slash
    (http_get : string -> list (string * string) -> result JiraService.response)
    (base_url story_key token : string) :
  JiraService.fetch_story http_get (base_url ++ "/") story_key token
    = JiraService.fetch_story http_get base_url story_key token /\
  (forall c, c <> "/"%char ->
     JiraService.rstrip_slash (base_url ++ String c "") = base_url ++ String c "").
Proof.
  split.
  - unfold JiraService.fetch_story. now rewrite rstrip_slash_slash.
  - intros c N. now apply rstrip_slash_no_slash.
Qed.

Lemma fetch_story_trailing_slash_witness :
  JiraService.rstrip_slash "https://jira.example.org" = "https://jira.example.org".
Proof.
  apply (proj2 (fetch_story_trailing_slash Examples.jira "https://jira.example.or"
                  "HC-1" "dG9rZW4=") "g"%char).
  discriminate.
Defined.

Lemma walk_inner_cons (inner : json) (rest : list json) (acc : string) :
  JiraService.walk_inner (inner :: rest) acc =
    (t <- get inner "text" JNull ;;
     if truthy t then
       t' <- get inner "text" JNull ;;
       piece <- JiraService.add_empty t' ;;
       JiraService.walk_inner rest (acc ++ piece)
     else JiraService.walk_inner rest acc).
Proof.
  reflexivity.
Qed.

Lemma walk_inner_flat (inners : list json) (ts : list string) (acc : string) :
  Forall2 Adf.inner_text inners ts ->
  JiraService.walk_inner inners acc = Ok (acc ++ Adf.concat ts).
Proof.
  intros F. revert acc.
  induction F as [|inner t inners ts (m & -> & H) F IH]; intros acc.
  - simpl. now rewrite append_nil_r.
  - rewrite walk_inner_cons. unfold get.
    destruct H as [G | [G ->]]; rewrite G; cbn [bind truthy].
    + destruct (String.eqb_spec t "") as [->|N]; cbn [negb].
      * apply IH.
      * cbn [JiraService.add_empty bind].
        rewrite IH, append_nil_r, append_assoc. reflexivity.
    + cbn [negb]. apply IH.
Qed.

Lemma walk_blocks_cons (block : json) (rest : list json) (acc : string) :
  JiraService.walk_blocks (block :: rest) acc =
    (c <- get block "content" (JArr []) ;;
     inners <- iter c ;;
     acc' <- JiraService.walk_inner inners acc ;;
     JiraService.walk_blocks rest acc').
Proof.
  reflexivity.
Qed.

Lemma walk_blocks_flat (blocks : list json) (tss : list (list string)) (acc : string) :
  Forall2 Adf.block_text blocks tss ->
  JiraService.walk_blocks blocks acc = Ok (acc ++ Adf.concat (map Adf.concat tss)).
Proof.
  intros F. revert acc.
  induction F as [|block ts blocks tss (m & inners & -> & G & Fi) F IH]; intros acc.
  - simpl. now rewrite append_nil_r.
  - rewrite walk_blocks_cons. unfold get. rewrite G. cbn [bind iter].
    rewrite (walk_inner_flat _ _ _ Fi). cbn [bind].
    rewrite IH. cbn [map Adf.concat]. now rewrite append_assoc.
Qed.

(** X14.  A description or acceptance field in document format, a dict
    whose ['content'] lists blocks whose ['content'] lists inline nodes, is
    flattened to the texts of its inline nodes, in document order and with
    nothing between them; inline nodes without text add nothing. *)
Theorem adf_is_flattened
    (fields d : list (string * json)) (blocks : list json)
    (tss : list (list string)) (summary : string) :
  dict_get d "content" = Some (JArr blocks) ->
  Forall2 Adf.block_text blocks tss ->
  (forall acc, JiraService.walk_blocks blocks acc
                 = Ok (acc ++ Adf.concat (map Adf.concat tss))) /\
  (dict_get fields "customfield_10034" = Some (JObj d) ->
   JiraService.acceptance_loop JiraService.acceptance_keys (JObj fields) ""
     = Ok (Adf.concat (map Adf.concat tss))) /\
  (dict_get fields "summary" = Some (JStr summary) ->
   dict_get fields "description" = Some (JObj d) ->
   blocks <> [] ->
   (forall k, In k JiraService.acceptance_keys -> Spec.str_or_dict fields k = false) ->
   JiraService.story_of_issue (JObj [("fields", JObj fields)])
     = Ok ("Summary:" ++ summary ++ "Description:" ++ Adf.concat (map Adf.concat tss)
           ++ "Acceptance Criteria:")).
Proof.
  intros G F. split; [|split].
  - intros acc. now apply walk_blocks_flat.
  - intros Ga. unfold JiraService.acceptance_keys.
    cbn [JiraService.acceptance_loop]. unfold get at 1. rewrite Ga. cbn [bind].
    unfold get. rewrite G. cbn [bind iter].
    now rewrite (walk_blocks_flat _ _ _ F).
  - intros Gs Gd Hn Hk. unfold JiraService.story_of_issue.
    cbn [get dict_get String.eqb Ascii.eqb Bool.eqb bind].
    rewrite Gs, Gd. cbn [is_dict bind get]. rewrite G.
    assert (T : truthy (JArr blocks) = true) by (destruct blocks; [congruence|reflexivity]).
    cbn [bind]. rewrite T. rewrite ?G. cbn [iter bind]. rewrite (walk_blocks_flat _ _ _ F).
    cbn [bind]. rewrite (acceptance_loop_none fields _ _ Hk). reflexivity.
Qed.

Lemma adf_is_flattened_witness :
  JiraService.walk_blocks
    [JObj [("type", JStr "paragraph");
           ("content", JArr [JObj [("type", JStr "text"); ("text", JStr "Given a patient")];
                             JObj [("type", JStr "hardBreak")];
                             JObj [("type", JStr "text"); ("text", JStr " with consent")]])]]
    ""
  = Ok "Given a patient with consent".
Proof.
  refine (proj1 (adf_is_flattened []
                   [("type", JStr "doc");
                    ("content",
                     JArr [JObj [("type", JStr "paragraph");
                                 ("content",
                                  JArr [JObj [("type", JStr "text");
                                              ("text", JStr "Given a patient")];
                                        JObj [("type", JStr "hardBreak")];
                                        JObj [("type", JStr "text");
                                              ("text", JStr " with consent")]])]])]
                   _ [["Given a patient"; ""; " with consent"]] "" eq_refl _) "").
  repeat constructor.
  eexists _, _. split; [reflexivity|]. split; [reflexivity|].
  repeat constructor.
  - eexists. split; [reflexivity|]. left. reflexivity.
  - eexists. split; [reflexivity|]. right. split; reflexivity.
  - eexists. split; [reflexivity|]. left. reflexivity.
Defined.

(** X15.  Whenever [fetch_story] builds a story from a decoded issue, the
    story has the three sections in their fixed order and with their fixed
    labels: ['Summary:'], then ['Description:'], then
    ['Acceptance Criteria:']. *)
Theorem story_has_three_sections (data : json) (story : string) :
  JiraService.story_of_issue data = Ok story ->
  exists summary description acceptance,
    story = "Summary:" ++ summary ++ "Description:" ++ description
            ++ "Acceptance Criteria:" ++ acceptance.
Proof.
  unfold JiraService.story_of_issue.
  destruct (get data "fields" (JObj [])) as [fields|e]; cbn [bind]; [|discriminate].
  destruct (get fields "summary" (JStr "")) as [summary|e]; cbn [bind]; [|discriminate].
  destruct (get fields "description" JNull) as [d|e]; cbn [bind]; [|discriminate].
  match goal with
  | |- bind ?c _ = _ -> _ => destruct c as [description|e]; cbn [bind]; [|discriminate]
  end.
  destruct (JiraService.acceptance_loop _ _ _) as [acceptance|e]; cbn [bind];
    [|discriminate].
  destruct summary as [| | | |s| |]; cbn [JiraService.str_add bind]; try discriminate.
  intros H. injection H as <-.
  exists s, description, acceptance. simpl. reflexivity.
Qed.

Lemma story_has_three_sections_witness :
  exists summary description acceptance,
    "Summary:Withdraw consentDescription:Patient withdraws consent.Acceptance Criteria:"
    = "Summary:" ++ summary ++ "Description:" ++ description
      ++ "Acceptance Criteria:" ++ acceptance.
Proof.
  apply (story_has_three_sections
           (JObj [("fields",
                   JObj [("summary", JStr "Withdraw consent");
                         ("description", JStr "Patient withdraws consent.");
                         ("customfield_10034", JStr "")])])).
  reflexivity.
Defined.

(* ----------------------------------------------------------------- *)
(** ** The PDF adapter *)




(* ----------------------------------------------------------------- *)
(** ** Sessions *)

(** X17.  A login that is not accepted never answers with status 401: the
    401 raised for wrong credentials, like any failure of the check itself,
    is caught by the handler of [login] and answered with status 500 and
    the detail ['Login failed'], and no session is stored. *)
Theorem login_failure_is_500
    (authenticate : string -> string -> result bool)
    (username password token now : string) (user_sessions : MainAdmin.sessions) :
  authenticate username password <> Ok true ->
  MainAdmin.login authenticate username password token now user_sessions
    = (Raise (HTTPException 500 "Login failed"), user_sessions).
Proof.
  intros H. unfold MainAdmin.login.
  destruct (authenticate username password) as [[|]|e]; [congruence | reflexivity | reflexivity].
Qed.

Lemma login_failure_is_500_witness :
  MainAdmin.login (fun _ _ => Ok false) "alice" "wrong" "tok-1" "2024-01-15T10:30:00" []
    = (Raise (HTTPException 500 "Login failed"), []).
Proof.
  apply (login_failure_is_500 (fun _ _ => Ok false)); discriminate.
Defined.

(** X18.  After an accepted login the token handed out resolves to the
    session of the user who logged in, and every other token resolves as it
    did before; a token that was never handed out is refused with status
    401. *)
Theorem login_token_resolves
    (authenticate : string -> string -> result bool)
    (username password token now : string) (user_sessions : MainAdmin.sessions) :
  authenticate username password = Ok true ->
  fst (MainAdmin.login authenticate username password token now user_sessions)
    = Ok (JObj [("success", JBool true); ("token", JStr token)]) /\
  MainAdmin.get_current_user token
      (snd (MainAdmin.login authenticate username password token now user_sessions))
    = Ok {| MainAdmin.username := username; MainAdmin.login_time := now |} /\
  (forall other, other <> token ->
     MainAdmin.get_current_user other
         (snd (MainAdmin.login authenticate username password token now user_sessions))
       = MainAdmin.get_current_user other user_sessions) /\
  (forall unknown, dict_get user_sessions unknown = None ->
     MainAdmin.get_current_user unknown user_sessions
       = Raise (HTTPException 401 "Invalid token")).
Proof.
  intros H. unfold MainAdmin.login. rewrite H. cbn [fst snd].
  unfold MainAdmin.get_current_user. repeat split.
  - now rewrite dict_get_set_same.
  - intros other N. now rewrite dict_get_set_other.
  - intros unknown G. now rewrite G.
Qed.

Lemma login_token_resolves_witness :
  MainAdmin.get_current_user "tok-2"
    (snd (MainAdmin.login (fun _ _ => Ok true) "bob" "secret" "tok-2"
            "2024-01-15T10:31:00"
            [("tok-1", {| MainAdmin.username := "alice";
                          MainAdmin.login_time := "2024-01-15T10:30:00" |})]))
  = Ok {| MainAdmin.username := "bob"; MainAdmin.login_time := "2024-01-15T10:31:00" |}.
Proof.
  apply (proj1 (proj2 (login_token_resolves (fun _ _ => Ok true) "bob" "secret" "tok-2"
                         "2024-01-15T10:31:00"
                         [("tok-1", {| MainAdmin.username := "alice";
                                       MainAdmin.login_time := "2024-01-15T10:30:00" |})]
                         eq_refl))).
Defined.

(* ----------------------------------------------------------------- *)
(** ** The activity log *)

Lemma list_from_last (A : Type) (l : list A) (k : nat) :
  (0 < k)%nat ->
  MainAdmin.list_from l (- Z.of_nat k) = skipn (List.length l - k) l.
Proof.
  intros K. unfold MainAdmin.list_from, clamp. f_equal.
  destruct (Z.ltb_spec (- Z.of_nat k) 0); lia.
Qed.

(** X19.  [get_logs] returns the newest entries of the log, at most 100 of
    them, in the order they were written: the whole log while it has at most
    100 entries, otherwise the log without its oldest entries.  An entry
    just written is the last one returned, and right after [clear_logs] the
    log holds one entry, the record of the clearing. *)
Theorem get_logs_newest_100 (system_logs : list MainAdmin.log_entry)
    (now level message current_user : string) :
  (List.length (MainAdmin.get_logs system_logs) <= 100)%nat /\
  (exists older, system_logs = (older ++ MainAdmin.get_logs system_logs)%list /\
     List.length older = (List.length system_logs - 100)%nat) /\
  ((List.length system_logs <= 100)%nat -> MainAdmin.get_logs system_logs = system_logs) /\
  (exists earlier,
     MainAdmin.get_logs (MainAdmin.log_activity now level message system_logs)
       = (earlier ++ [{| MainAdmin.timestamp := now; MainAdmin.level := level;
                         MainAdmin.message := message |}])%list) /\
  MainAdmin.get_logs (MainAdmin.clear_logs now current_user system_logs)
    = [{| MainAdmin.timestamp := now; MainAdmin.level := "INFO";
          MainAdmin.message := "System logs cleared by " ++ current_user |}].
Proof.
  assert (E : forall l : list MainAdmin.log_entry,
             MainAdmin.get_logs l = skipn (List.length l - 100) l).
  { intros l. unfold MainAdmin.get_logs.
    change (-100)%Z with (- Z.of_nat 100)%Z. apply list_from_last. lia. }
  split; [|split; [|split; [|split]]].
  - rewrite E, length_skipn. lia.
  - exists (firstn (List.length system_logs - 100) system_logs). split.
    + rewrite E. symmetry. apply firstn_skipn.
    + rewrite length_firstn. lia.
  - intros H. rewrite E. replace (List.length system_logs - 100)%nat with 0%nat by lia.
    reflexivity.
  - rewrite E. unfold MainAdmin.log_activity. rewrite length_app. cbn [List.length].
    rewrite skipn_app.
    replace (List.length system_logs + 1 - 100 - List.length system_logs)%nat
      with 0%nat by lia.
    eexists. reflexivity.
  - reflexivity.
Qed.

Lemma get_logs_newest_100_witness :
  MainAdmin.get_logs
    [{| MainAdmin.timestamp := "2024-01-15T10:30:00"; MainAdmin.level := "INFO";
        MainAdmin.message := "User alice logged in successfully" |}]
  = [{| MainAdmin.timestamp := "2024-01-15T10:30:00"; MainAdmin.level := "INFO";
        MainAdmin.message := "User alice logged in successfully" |}].
Proof.
  apply (proj1 (proj2 (proj2 (get_logs_newest_100
                                [{| MainAdmin.timestamp := "2024-01-15T10:30:00";
                                    MainAdmin.level := "INFO";
                                    MainAdmin.message := "User alice logged in successfully" |}]
                                "" "" "" "")))).
  simpl. lia.
Defined.

(* ----------------------------------------------------------------- *)
(** ** Generation runs: fixed questions, empty results, missing keys *)

(** X20.  The follow-up questions are fixed: two generation runs that both
    ask for clarifications return the same dict, whatever their source
    texts, their limits and the responses of the model were. *)
Theorem followups_are_static
    (loads : string -> result json) (llm1 llm2 : string -> result string)
    (source1 source2 content1 content2 : string) (max1 max2 : Z)
    (parsed1 parsed2 : json) :
  llm1 (LLMService._build_generation_prompt source1 max1) = Ok content1 ->
  llm2 (LLMService._build_generation_prompt source2 max2) = Ok content2 ->
  LLMService._safe_parse_json loads content1 = Ok parsed1 ->
  LLMService._safe_parse_json loads content2 = Ok parsed2 ->
  LLMService.wants_followups (LLMService.or_empty parsed1) true = Ok true ->
  LLMService.wants_followups (LLMService.or_empty parsed2) true = Ok true ->
  LLMService.generate_test_cases loads llm1 source1 max1 true
    = LLMService.generate_test_cases loads llm2 source2 max2 true /\
  LLMService.generate_test_cases loads llm1 source1 max1 true
    = Ok (JObj [("followUpQuestions",
                 JArr (map JStr (LLMService._propose_followups "")))]).
Proof.
  intros C1 C2 P1 P2 W1 W2.
  rewrite (generate_test_cases_eq loads llm1 _ _ _ _ _ C1 P1), W1.
  rewrite (generate_test_cases_eq loads llm2 _ _ _ _ _ C2 P2), W2.
  split; reflexivity.
Qed.

Lemma followups_are_static_witness :
  LLMService.generate_test_cases Json.loads (Examples.model Examples.one_case)
      Examples.story 10 true
    = LLMService.generate_test_cases Json.loads (Examples.model "no JSON here")
        "Lab order entry" 3 true.
Proof.
  apply (proj1 (followups_are_static Json.loads (Examples.model Examples.one_case)
                  (Examples.model "no JSON here") Examples.story "Lab order entry"
                  Examples.one_case "no JSON here" 10 3
                  (JObj [("testCases", JArr [Examples.tc "TC-001"])]) JNull
                  eq_refl eq_refl eq_refl eq_refl eq_refl eq_refl)).
Defined.

(** X21.  With no Jira token configured a Jira request fails with status
    500 before Jira or the model is contacted, and stores nothing. *)
Theorem jira_request_without_token
    (loads : string -> result json) (llm : string -> result string)
    (exn_str : exn -> string) (admin_settings : Main.settings)
    (http_get : string -> list (string * string) -> result JiraService.response)
    (jiraBaseUrl storyNumber current_user context_id : string) (st : Main.store) :
  Main.jiraToken admin_settings = "" ->
  Main.fetch_jira_story loads llm exn_str admin_settings http_get jiraBaseUrl
      storyNumber current_user context_id st
    = (Raise (HTTPException 500
                ("Failed to fetch Jira story: "
                 ++ exn_str (Exception "Jira token not configured in Admin Settings"))),
       st).
Proof.
  intros H.
  unfold Main.fetch_jira_story, Main.try_exceptM, Main.bindM, Main.lift, Main.raise.
  unfold JiraService.fetch_story. rewrite H. reflexivity.
Qed.

Lemma jira_request_without_token_witness :
  Main.fetch_jira_story Json.loads (Examples.model Examples.three_cases)
      Examples.exn_name
      {| Main.jiraToken := ""; Main.maxTestCases := 10;
         Main.enableFollowUpQuestions := true |}
      Examples.jira "https://jira.example.org" "HC-1" "alice" "ctx-1" []
    = (Raise (HTTPException 500
                "Failed to fetch Jira story: Jira token not configured in Admin Settings"),
       []).
Proof.
  apply (jira_request_without_token Json.loads (Examples.model Examples.three_cases)
           Examples.exn_name
           {| Main.jiraToken := ""; Main.maxTestCases := 10;
              Main.enableFollowUpQuestions := true |}
           Examples.jira "https://jira.example.org" "HC-1" "alice" "ctx-1" []).
  reflexivity.
Defined.

(** X22.  With follow-up questions disabled, an upload whose response gives
    nothing usable is answered with an empty list of test cases and stores
    nothing; a response that parses to a non-empty object without the key
    ['testCases'] and without follow-up questions is answered with status
    500 instead, for the missing key. *)
Theorem upload_without_followups
    (loads : string -> result json) (llm : string -> result string)
    (exn_str : exn -> string) (admin_settings : Main.settings)
    (filename source current_user context_id content : string)
    (st : Main.store) (parsed : json) :
  Main.endswith filename ".pdf" = true ->
  Main.enableFollowUpQuestions admin_settings = false ->
  llm (LLMService._build_generation_prompt source (Main.maxTestCases admin_settings))
    = Ok content ->
  LLMService._safe_parse_json loads content = Ok parsed ->
  (truthy parsed = false ->
   Main.upload_file loads llm exn_str admin_settings filename (Ok source)
       current_user context_id st
     = (Ok (JObj [("testCases", JArr [])]), st)) /\
  (forall m, parsed = JObj m -> m <> [] ->
     dict_get m "testCases" = None -> Spec.own_followups m = false ->
     Main.upload_file loads llm exn_str admin_settings filename (Ok source)
         current_user context_id st
       = (Raise (HTTPException 500
                   ("Failed to process file: " ++ exn_str (KeyError "testCases"))), st)).
Proof.
  intros Hf He Hc Hp.
  pose proof (generate_test_cases_eq loads llm _ _
                (Main.enableFollowUpQuestions admin_settings) _ _ Hc Hp) as G.
  rewrite He in G. cbn [LLMService.wants_followups bind] in G.
  split.
  - intros Ht.
    rewrite (upload_file_eq loads llm exn_str admin_settings _ _ _ _ _ Hf), He, G.
    rewrite (or_empty_falsy _ Ht). reflexivity.
  - intros m -> Hn Hd Ho.
    rewrite (upload_file_eq loads llm exn_str admin_settings _ _ _ _ _ Hf), He, G.
    assert (T : truthy (JObj m) = true) by (destruct m; [congruence | reflexivity]).
    rewrite (or_empty_truthy _ T).
    destruct (own_followups_get _ Ho) as (fq & Hg & Hq).
    rewrite (respond_cases _ _ _ _ _ _ Hg Hq).
    cbn [getitem]. rewrite Hd. reflexivity.
Qed.

Lemma upload_without_followups_witness :
  Main.upload_file Json.loads (Examples.model "{}") Examples.exn_name
      Examples.settings_off "story.pdf" (Ok Examples.story) "alice" "ctx-1" []
    = (Ok (JObj [("testCases", JArr [])]), []) /\
  Main.upload_file Json.loads (Examples.model (dquoted "{'note': 'nothing to test'}"))
      Examples.exn_name Examples.settings_off "story.pdf" (Ok Examples.story)
      "alice" "ctx-1" []
    = (Raise (HTTPException 500 "Failed to process file: 'testCases'"), []).
Proof.
  split.
  - apply (proj1 (upload_without_followups Json.loads (Examples.model "{}")
                    Examples.exn_name Examples.settings_off "story.pdf" Examples.story
                    "alice" "ctx-1" "{}" [] (JObj [])
                    eq_refl eq_refl eq_refl eq_refl)).
    reflexivity.
  - apply (proj2 (upload_without_followups Json.loads
                    (Examples.model (dquoted "{'note': 'nothing to test'}"))
                    Examples.exn_name Examples.settings_off "story.pdf" Examples.story
                    "alice" "ctx-1" (dquoted "{'note': 'nothing to test'}") []
                    (JObj [("note", JStr "nothing to test")])
                    eq_refl eq_refl eq_refl eq_refl)
             [("note", JStr "nothing to test")]);
      [reflexivity | discriminate | reflexivity | reflexivity].
Defined.
